(** * Farmer Training Module Generator: a shallow embedding of [app.py]

    The development follows the three classes of the program
    ([AgricultureExpert], [AISystem], [TrainingModuleBuilder]) and the
    [/generate] route handler, and proves the properties the specification
    states about them.

    Modelling conventions.
    - A Python [str] is a [string]: the UTF-8 bytes of the text, which is how
      the literals of the source (emoji included) are written below. A lone
      surrogate, which JSON can carry and UTF-8 does not encode, is the three
      bytes the same scheme gives it (ED A0..BF 80..BF).
    - Python built-ins that the program calls but does not define, and whose
      behaviour depends on tables or on the environment of the interpreter
      ([str.lower], [str.upper], [str.title], [hash], [repr] of containers,
      whether [print] can write a line to the console), are the fields of the
      class [PyRuntime]; every theorem holds for every runtime.
      [cpython seed] is an executable instance, exact on ASCII text, with a
      UTF-8 console.
    - [str.strip] is defined in full (ASCII and Unicode white space).
    - An exception is a value of [exn]; code that can raise returns [result].
    - The wall clock is an input: the formatted time is an argument. *)

From Stdlib Require Import ZArith Ascii PrimFloat.
From stdpp Require Import gmap strings list fin_maps.

Local Open Scope Z_scope.

(** ** Strings *)

Module Str.

(** [needle in hay] of Python, as a proposition. *)
Definition contains (needle hay : string) : Prop :=
  exists before after, hay = before +:+ needle +:+ after.

(** The same test as a function, for literals. *)
Fixpoint containsb (needle hay : string) : bool :=
  String.prefix needle hay ||
  match hay with
  | EmptyString => false
  | String _ rest => containsb needle rest
  end.

Definition of_ascii (c : ascii) : string := String c EmptyString.

(** [bool(s)]: a string is true when it is not empty. *)
Definition str_bool (s : string) : bool :=
  match s with
  | EmptyString => false
  | String _ _ => true
  end.

(** [chr(10)] *)
Definition LF : string := of_ascii (ascii_of_N 10).

(** [sep.join(parts)] *)
Definition join (sep : string) (parts : list string) : string :=
  String.concat sep parts.

(** White space is what [str.isspace] says: U+0009..U+000D,
    U+001C..U+0020 (one byte), U+0085, U+00A0 (two bytes), U+1680,
    U+2000..U+200A, U+2028, U+2029, U+202F, U+205F, U+3000 (three bytes). *)
Definition is_ascii_space (c : ascii) : bool :=
  let n := N_of_ascii c in
  ((9 <=? n) && (n <=? 13) || (28 <=? n) && (n <=? 32))%N.

Definition is_space2 (c d : ascii) : bool :=
  let '(m, n) := (N_of_ascii c, N_of_ascii d) in
  ((m =? 194) && ((n =? 133) || (n =? 160)))%N.

Definition is_space3 (c d e : ascii) : bool :=
  let '(m, n, o) := (N_of_ascii c, N_of_ascii d, N_of_ascii e) in
  ((m =? 225) && (n =? 154) && (o =? 128)
   || (m =? 226) && (n =? 128)
      && ((128 <=? o) && (o <=? 138) || (o =? 168) || (o =? 169) || (o =? 175))
   || (m =? 226) && (n =? 129) && (o =? 159)
   || (m =? 227) && (n =? 128) && (o =? 128))%N.

(** [s.lstrip()] *)
Fixpoint lstrip (s : string) : string :=
  match s with
  | EmptyString => EmptyString
  | String c s1 =>
      if is_ascii_space c then lstrip s1
      else match s1 with
           | String d s2 =>
               if is_space2 c d then lstrip s2
               else match s2 with
                    | String e s3 => if is_space3 c d e then lstrip s3 else s
                    | EmptyString => s
                    end
           | EmptyString => s
           end
  end.

(** A string made of white space only. *)
Definition is_blank (s : string) : bool :=
  match lstrip s with
  | EmptyString => true
  | String _ _ => false
  end.

(** [s.rstrip()]: cut at the first position from which only white space
    follows. *)
Fixpoint rstrip (s : string) : string :=
  match s with
  | EmptyString => EmptyString
  | String c s1 => if is_blank s then EmptyString else String c (rstrip s1)
  end.

(** [s.strip()] *)
Definition strip (s : string) : string := rstrip (lstrip s).

(** ASCII case mapping, for [ascii_runtime]. *)
Definition is_upper (c : ascii) : bool :=
  let n := N_of_ascii c in ((65 <=? n) && (n <=? 90))%N.
Definition is_lower (c : ascii) : bool :=
  let n := N_of_ascii c in ((97 <=? n) && (n <=? 122))%N.
Definition to_lower (c : ascii) : ascii :=
  if is_upper c then ascii_of_N (N_of_ascii c + 32) else c.
Definition to_upper (c : ascii) : ascii :=
  if is_lower c then ascii_of_N (N_of_ascii c - 32) else c.

Fixpoint map (f : ascii -> ascii) (s : string) : string :=
  match s with
  | EmptyString => EmptyString
  | String c s1 => String (f c) (map f s1)
  end.

Definition lower : string -> string := map to_lower.
Definition upper : string -> string := map to_upper.

(** [s.title()]: a cased character is upper-cased when the character
    before it is not cased, and lower-cased otherwise. *)
Fixpoint title_from (previous_is_cased : bool) (s : string) : string :=
  match s with
  | EmptyString => EmptyString
  | String c s1 =>
      String (if previous_is_cased then to_lower c else to_upper c)
             (title_from (is_upper c || is_lower c) s1)
  end.

Definition title : string -> string := title_from false.

End Str.

(** ** Python values, exceptions *)

(** What [request.get_json()] can return: the Python image of a JSON
    document. *)
#[warnings="-register-all"]
Inductive value : Type :=
  | VNone
  | VBool (b : bool)
  | VInt (z : Z)
  | VFloat (f : float)
  | VStr (s : string)
  | VList (items : list value)
  | VDict (entries : gmap string value).

(** [type(v).__name__] *)
Definition type_name (v : value) : string :=
  match v with
  | VNone => "NoneType"
  | VBool _ => "bool"
  | VInt _ => "int"
  | VFloat _ => "float"
  | VStr _ => "str"
  | VList _ => "list"
  | VDict _ => "dict"
  end.

(** An exception, with the text [str(error)] gives. *)
Inductive exn : Type :=
  | AttributeError (message : string)
  | IndexError (message : string)
  | UnicodeEncodeError (message : string)
  | OtherException (message : string).

Definition exn_message (e : exn) : string :=
  match e with
  | AttributeError m | IndexError m | UnicodeEncodeError m | OtherException m => m
  end.

Inductive result (A : Type) : Type :=
  | Ok (a : A)
  | Raise (e : exn).
Arguments Ok {A} a.
Arguments Raise {A} e.

#[global] Instance result_ret : MRet result := @Ok.
#[global] Instance result_bind : MBind result :=
  fun A B f m => match m with Ok a => f a | Raise e => Raise e end.

Definition no_attribute (v : value) (attr : string) : exn :=
  AttributeError ("'" +:+ type_name v +:+ "' object has no attribute '" +:+ attr +:+ "'").

(** ** The interpreter *)

Class PyRuntime : Type := {
  (* s.lower(), s.upper(), s.title() *)
  str_lower : string -> string;
  str_upper : string -> string;
  str_title : string -> string;
  (* hash(s): a signed machine integer, fixed for the life of a process *)
  str_hash : string -> Z;
  (* str(v) for a float, a list or a dict *)
  container_str : value -> string;
  (* print(line): None when the console takes the line, the exception that
     print raises otherwise (a text the encoding of the console cannot
     write) *)
  print_raises : string -> option exn
}.

(** Decimal digits of an integer: [str(z)]. *)
Fixpoint pos_digits (fuel : nat) (n : N) (acc : string) : string :=
  match fuel with
  | O => acc
  | S fuel' =>
      let acc' := String (ascii_of_N (48 + n mod 10)) acc in
      if (n <? 10)%N then acc' else pos_digits fuel' (n / 10) acc'
  end.

Definition int_str (z : Z) : string :=
  let digits := pos_digits (S (N.to_nat (N.log2 (Z.abs_N z)))) (Z.abs_N z) "" in
  if z <? 0 then "-" +:+ digits else digits.

(** [f"{v}"], that is [format(v, "")], which is [str(v)] for these types. *)
Definition format_value `{PyRuntime} (v : value) : string :=
  match v with
  | VStr s => s
  | VNone => "None"
  | VBool true => "True"
  | VBool false => "False"
  | VInt z => int_str z
  | VFloat _ | VList _ | VDict _ => container_str v
  end.

(** ** A UTF-8 console

    [print] on a console whose encoding is UTF-8 writes every text but one
    that holds a surrogate, for which it raises [UnicodeEncodeError]. The
    message names the first surrogate and its position, counted in
    characters, or the positions of the first run of surrogates. *)

Module Console.

Definition is_continuation (c : ascii) : bool :=
  let n := N_of_ascii c in ((128 <=? n) && (n <=? 191))%N.

(** The three bytes of a surrogate, U+D800..U+DFFF. *)
Definition is_surrogate (c d e : ascii) : bool :=
  let '(m, n) := (N_of_ascii c, N_of_ascii d) in
  ((m =? 237) && (160 <=? n) && (n <=? 191))%N && is_continuation e.

Definition surrogate_code (d e : ascii) : N :=
  (55296 + (N_of_ascii d - 160) * 64 + (N_of_ascii e - 128))%N.

(** The first surrogate of [s]: its position, its code and the text after
    it. [position] counts the characters passed so far. *)
Fixpoint first_surrogate (position : N) (s : string) : option (N * N * string) :=
  match s with
  | EmptyString => None
  | String c s1 =>
      let next :=
        first_surrogate (if is_continuation c then position else position + 1)%N s1 in
      match s1 with
      | String d (String e s3) =>
          if is_surrogate c d e then Some (position, surrogate_code d e, s3) else next
      | _ => next
      end
  end.

(** The number of surrogates [s] starts with. *)
Fixpoint surrogate_run (s : string) : N :=
  match s with
  | String c (String d (String e s3)) =>
      if is_surrogate c d e then (1 + surrogate_run s3)%N else 0%N
  | _ => 0%N
  end.

Definition hex_digit (n : N) : ascii :=
  ascii_of_N (if (n <? 10)%N then 48 + n else 87 + n).

(** Four hexadecimal digits, in lower case. *)
Definition hex4 (n : N) : string :=
  String (hex_digit (n / 4096 mod 16)) (String (hex_digit (n / 256 mod 16))
    (String (hex_digit (n / 16 mod 16)) (String (hex_digit (n mod 16)) EmptyString))).

Definition print_raises (line : string) : option exn :=
  match first_surrogate 0 line with
  | None => None
  | Some (position, code, rest) =>
      let run := surrogate_run rest in
      Some (UnicodeEncodeError
        (if (run =? 0)%N
         then "'utf-8' codec can't encode character '\u" +:+ hex4 code
              +:+ "' in position " +:+ int_str (Z.of_N position)
              +:+ ": surrogates not allowed"
         else "'utf-8' codec can't encode characters in position "
              +:+ int_str (Z.of_N position) +:+ "-"
              +:+ int_str (Z.of_N (position + run))
              +:+ ": surrogates not allowed"))
  end.

End Console.

(** An executable runtime, exact on ASCII text, with a UTF-8 console; its
    hash is a parameter. *)
Definition ascii_runtime (hash : string -> Z) : PyRuntime := {|
  str_lower := Str.lower;
  str_upper := Str.upper;
  str_title := Str.title;
  str_hash := hash;
  container_str := fun _ => "<object>";
  print_raises := Console.print_raises
|}.

(** ** CPython's string hash

    [hash] of a [str] in CPython 3.11 and later is SipHash-1-3 ([siphash13]
    of Python/pyhash.c) over the characters of the string, one byte each for
    ASCII text, under a 128-bit key [(k0, k1)] drawn when the interpreter
    starts; the key is zero when hash randomisation is off
    (PYTHONHASHSEED=0). *)

Module CPython.

Definition wrap64 (x : Z) : Z := Z.land x (Z.ones 64).

(** [ROTATE(x, b)] *)
Definition rotate (x b : Z) : Z :=
  wrap64 (Z.lor (Z.shiftl x b) (Z.shiftr x (64 - b))).

(** [HALF_ROUND(a, b, c, d, s, t)] *)
Definition half_round (a b c d s t : Z) : Z * Z * Z * Z :=
  let a := wrap64 (a + b) in
  let c := wrap64 (c + d) in
  let b := Z.lxor (rotate b s) a in
  let d := Z.lxor (rotate d t) c in
  let a := rotate a 32 in
  (a, b, c, d).

(** [SINGLE_ROUND(v0, v1, v2, v3)] *)
Definition single_round (v : Z * Z * Z * Z) : Z * Z * Z * Z :=
  let '(v0, v1, v2, v3) := v in
  let '(v0, v1, v2, v3) := half_round v0 v1 v2 v3 13 16 in
  let '(v2, v1, v0, v3) := half_round v2 v1 v0 v3 17 21 in
  (v0, v1, v2, v3).

(** A little-endian word of at most eight bytes. *)
Fixpoint le64 (bytes : list Z) : Z :=
  match bytes with
  | [] => 0
  | b :: rest => Z.lor b (Z.shiftl (le64 rest) 8)
  end.

(** The [while (src_sz >= 8)] loop; returns the state and the bytes left. *)
Fixpoint absorb (v : Z * Z * Z * Z) (src : list Z) : Z * Z * Z * Z * list Z :=
  match src with
  | b0 :: b1 :: b2 :: b3 :: b4 :: b5 :: b6 :: b7 :: rest =>
      let mi := le64 [b0; b1; b2; b3; b4; b5; b6; b7] in
      let '(v0, v1, v2, v3) := v in
      let '(v0, v1, v2, v3) := single_round (v0, v1, v2, Z.lxor v3 mi) in
      absorb (Z.lxor v0 mi, v1, v2, v3) rest
  | _ => (v, src)
  end.

Definition siphash13 (k0 k1 : Z) (src : list Z) : Z :=
  let b := wrap64 (Z.shiftl (Z.of_nat (length src)) 56) in
  let v0 := Z.lxor k0 0x736f6d6570736575 in
  let v1 := Z.lxor k1 0x646f72616e646f6d in
  let v2 := Z.lxor k0 0x6c7967656e657261 in
  let v3 := Z.lxor k1 0x7465646279746573 in
  let '(v0, v1, v2, v3, tail) := absorb (v0, v1, v2, v3) src in
  let b := Z.lor b (le64 tail) in
  let '(v0, v1, v2, v3) := single_round (v0, v1, v2, Z.lxor v3 b) in
  let v0 := Z.lxor v0 b in
  let v2 := Z.lxor v2 0xff in
  let '(v0, v1, v2, v3) := single_round (single_round (single_round (v0, v1, v2, v3))) in
  Z.lxor (Z.lxor v0 v1) (Z.lxor v2 v3).

(** [_Py_HashBytes]: the empty buffer hashes to 0; the unsigned result is
    read as a signed [Py_hash_t], and -1 (the error value) becomes -2. *)
Definition hash_bytes (k0 k1 : Z) (src : list Z) : Z :=
  match src with
  | [] => 0
  | _ =>
      let u := siphash13 k0 k1 src in
      let x := if 2 ^ 63 <=? u then u - 2 ^ 64 else u in
      if x =? -1 then -2 else x
  end.

Fixpoint bytes_of (s : string) : list Z :=
  match s with
  | EmptyString => []
  | String c rest => Z.of_N (N_of_ascii c) :: bytes_of rest
  end.

(** [hash(s)] for ASCII text [s]. *)
Definition str_hash (k0 k1 : Z) (s : string) : Z := hash_bytes k0 k1 (bytes_of s).

(** The key of a process started with [PYTHONHASHSEED=seed], [seed > 0]:
    [lcg_urandom] of Python/bootstrap_hash.c fills the secret byte by byte. *)
Fixpoint lcg_urandom (x : Z) (n : nat) : list Z :=
  match n with
  | O => []
  | S n' =>
      let x := Z.land (x * 214013 + 2531011) (Z.ones 32) in
      Z.land (Z.shiftr x 16) 255 :: lcg_urandom x n'
  end.

Definition seeded_key (seed : Z) : Z * Z :=
  if seed =? 0 then (0, 0)
  else let secret := lcg_urandom seed 16 in
       (le64 (take 8 secret), le64 (drop 8 secret)).

Definition seeded_hash (seed : Z) (s : string) : Z :=
  let '(k0, k1) := seeded_key seed in str_hash k0 k1 s.

End CPython.

(** The interpreter of a process started with [PYTHONHASHSEED=seed], on
    ASCII text. *)
Definition cpython (seed : Z) : PyRuntime := ascii_runtime (CPython.seeded_hash seed).

(** ** AgricultureExpert *)

Record CropProfile : Type := {
  name : string;
  season : string;
  water : string;
  spacing : string;
  duration : string
}.

Record ProblemProfile : Type := {
  key_techniques : list string;
  steps : list string;
  benefits : string
}.

Module AgricultureExpert.

Definition rice : CropProfile := {|
  name := "Rice";
  season := "Kharif (June to October)";
  water := "Needs standing water, 5-7 cm depth";
  spacing := "20 cm between plants, 20 cm between rows";
  duration := "120-150 days from sowing to harvest"
|}.

Definition wheat : CropProfile := {|
  name := "Wheat";
  season := "Rabi (November to March)";
  water := "4-6 irrigations, avoid waterlogging";
  spacing := "5 cm between plants, 22 cm between rows";
  duration := "110-130 days"
|}.

Definition tomato : CropProfile := {|
  name := "Tomato";
  season := "Year-round with care";
  water := "Regular watering, avoid wet leaves";
  spacing := "45 cm between plants, 60 cm between rows";
  duration := "90-120 days"
|}.

Definition CROP_INFO : gmap string CropProfile :=
  <["rice" := rice]> (<["wheat" := wheat]> (<["tomato" := tomato]> ∅)).

Definition irrigation : ProblemProfile := {|
  key_techniques := ["Drip irrigation"; "Sprinkler systems"; "Rainwater harvesting"];
  steps := [
    "Measure soil moisture regularly";
    "Water at plant roots, not leaves";
    "Water early morning or evening";
    "Adjust based on weather conditions"
  ];
  benefits := "Saves 30-50% water, increases yield by 20-30%"
|}.

Definition pest_control : ProblemProfile := {|
  key_techniques := ["Integrated Pest Management"; "Neem oil spray"; "Companion planting"];
  steps := [
    "Regular field inspection";
    "Identify pest type correctly";
    "Use natural predators first";
    "Apply chemicals only if needed"
  ];
  benefits := "Reduces chemical use by 40-60%, protects beneficial insects"
|}.

Definition soil_health : ProblemProfile := {|
  key_techniques := ["Organic compost"; "Crop rotation"; "Green manure"];
  steps := [
    "Test soil every season";
    "Add organic matter regularly";
    "Maintain proper pH level";
    "Avoid soil compaction"
  ];
  benefits := "Improves yield by 25-40%, reduces fertilizer need"
|}.

Definition PROBLEM_SOLUTIONS : gmap string ProblemProfile :=
  <["irrigation" := irrigation]>
    (<["pest control" := pest_control]> (<["soil health" := soil_health]> ∅)).

Definition default_crop `{PyRuntime} (crop_name : string) : CropProfile := {|
  name := str_title crop_name;
  season := "Adapt to local season";
  water := "Based on local conditions";
  spacing := "Follow seed packet instructions";
  duration := "Varies by variety"
|}.

Definition default_problem : ProblemProfile := {|
  key_techniques := ["Integrated approach"; "Regular monitoring"];
  steps := ["Assess situation"; "Plan solution"; "Implement carefully"];
  benefits := "Improved crop health and yield"
|}.

(** Get information about a specific crop *)
Definition get_crop_details `{PyRuntime} (crop_name : string) : CropProfile :=
  let crop_lower := str_lower crop_name in
  match CROP_INFO !! crop_lower with
  | Some info => info
  | None => default_crop crop_name
  end.

(** Get solutions for a specific problem *)
Definition get_problem_solution `{PyRuntime} (problem_name : string) : ProblemProfile :=
  let problem_lower := str_lower problem_name in
  match PROBLEM_SOLUTIONS !! problem_lower with
  | Some solution => solution
  | None => default_problem
  end.

End AgricultureExpert.

(** ** Indexing and arithmetic of Python *)

(** [items[i]]: a negative index counts from the end. *)
Definition list_getitem {A : Type} (items : list A) (i : Z) : result A :=
  let n := Z.of_nat (length items) in
  let j := if i <? 0 then i + n else i in
  if (j <? 0) || (n <=? j) then Raise (IndexError "list index out of range")
  else match items !! Z.to_nat j with
       | Some x => Ok x
       | None => Raise (IndexError "list index out of range")
       end.

(** [a % b] on integers: the result has the sign of [b]. *)
Definition py_mod (a b : Z) : result Z :=
  if b =? 0 then Raise (OtherException "integer modulo by zero")
  else Ok (a `mod` b).

(** ** AISystem *)

Module AISystem.

Definition insights (crop region problem : string) : list string := [
  "AI analysis suggests focusing on " +:+ region +:+ "-specific adaptation for " +:+ crop +:+ ".";
  "Machine learning models indicate integrated approach works best for " +:+ problem +:+ ".";
  "Data patterns show " +:+ crop +:+ " responds well to timely " +:+ problem +:+ " management.";
  "AI recommendation: Combine traditional knowledge with modern techniques."
].

(** Simulate AI generation *)
Definition generate_ai_insight `{PyRuntime} (crop region problem : string) : result string :=
  let insights := insights crop region problem in
  input_hash ← py_mod (str_hash (crop +:+ region +:+ problem))
                      (Z.of_nat (length insights));
  list_getitem insights input_hash.

(** Check if AI model is available *)
Definition check_ai_availability : bool := true.

End AISystem.

(** ** TrainingModuleBuilder *)

Record Metadata : Type := {
  generation_time : string;
  meta_crop : string;
  meta_region : string;
  meta_problem : string;
  meta_language : value;
  ai_used : bool
}.

Record ModuleResult : Type := {
  content : string;
  metadata : Metadata
}.

Module TrainingModuleBuilder.
Import AgricultureExpert AISystem Str.

Definition fallback_insight : string :=
  "System analysis recommends integrated management approach.".

(** The f-string of [create_module]: literal text and formatted values,
    in order. *)
Definition module_segments `{PyRuntime}
    (crop_info : CropProfile) (problem_solution : ProblemProfile)
    (ai_available : bool) (ai_insight formatted_time : string)
    (region problem : string) (language : value) : list string := [
    "
# FARMER TRAINING MODULE
## Crop: ";
    name crop_info;
    " | Region: ";
    region;
    " | Language: ";
    format_value language;
    "

### 📅 GENERATED ON: ";
    formatted_time;
    "

---

## 🌾 ABOUT THIS CROP

**Crop Name:** ";
    name crop_info;
    "
**Best Season:** ";
    season crop_info;
    "
**Water Needs:** ";
    water crop_info;
    "
**Plant Spacing:** ";
    spacing crop_info;
    "
**Growth Duration:** ";
    duration crop_info;
    "

---

## 🎯 FOCUS AREA: ";
    str_upper problem;
    "

### AI-GENERATED INSIGHT:
";
    (if str_bool ai_insight then ai_insight else fallback_insight);
    "

### RECOMMENDED TECHNIQUES:
";
    Str.join " • " (key_techniques problem_solution);
    "

### STEP-BY-STEP GUIDE:

1. **Week 1-2: Assessment & Planning**
   - Evaluate current ";
    problem;
    " conditions
   - Gather necessary tools and resources
   - Create implementation schedule

2. **Week 3-8: Implementation**
   ";
    Str.join Str.LF (List.map (fun step => "   - " +:+ step) (steps problem_solution));
    "
   - Monitor progress weekly
   - Make adjustments as needed

3. **Week 9-12: Evaluation**
   - Measure results and improvements
   - Document lessons learned
   - Share knowledge with other farmers

### KEY BENEFITS:
";
    benefits problem_solution;
    "

### REGION-SPECIFIC ADVICE FOR ";
    str_upper region;
    ":
- Consider local weather patterns
- Adapt to soil conditions in your area
- Consult local agriculture department
- Join local farmer groups for support

---

## 📊 EXPECTED RESULTS

### QUANTITATIVE IMPROVEMENTS:
- ";
    problem;
    " management: 40-60% better
- Crop yield increase: 20-35%
- Input cost reduction: 15-25%
- Labor efficiency: 20-30% improvement

### QUALITATIVE BENEFITS:
- Healthier crops
- Better soil quality
- More sustainable farming
- Increased confidence in farming

---

## 🛠️ IMPLEMENTATION TIPS

### DO'S:
✓ Start with small pilot area
✓ Keep detailed records
✓ Monitor daily progress
✓ Seek expert advice when needed
✓ Share results with community

### DON'TS:
✗ Don't implement everything at once
✗ Don't ignore warning signs
✗ Don't skip monitoring
✗ Don't work in isolation
✗ Don't forget to document

---

## ❓ FREQUENTLY ASKED QUESTIONS

**Q: How long before I see results?**
A: Most farmers see improvements within 4-6 weeks.

**Q: What if it doesn't work for my farm?**
A: Adjust the approach based on your specific conditions and consult local experts.

**Q: Is this expensive to implement?**
A: Many techniques are low-cost, and the yield increase usually covers any costs.

**Q: Can I use this with other crops?**
A: Yes, adapt the principles to other crops you grow.

---

## 🔧 SYSTEM INFORMATION

### TECHNOLOGY USED:
- Web Application: Flask Python Framework
- Knowledge Base: Agricultural Expert System
- AI Integration: Generative AI System Architecture
- Interface: Responsive Web Design

### GENERATION DETAILS:
- Module Created: ";
    formatted_time;
    "
- AI Assistance: ";
    (if ai_available then "Available" else "Not available");
    "
- Content Type: Personalized farming guidance
- System Status: Operational

---

## 📞 GETTING HELP

### LOCAL RESOURCES:
- Contact ";
    region;
    " Agriculture Department
- Visit nearest Krishi Vigyan Kendra (KVK)
- Join farmer WhatsApp groups
- Attend local farming workshops

### DIGITAL TOOLS:
- Use weather forecast apps
- Try soil testing mobile apps
- Watch farming tutorial videos
- Join online farmer communities

---
*This training module was generated automatically based on agricultural best practices.*
*Always consult local agricultural experts before implementing new techniques.*
"
].

(** The value of the [language] parameter when the caller gives none. *)
Definition default_language : value := VStr "English".

(** Create a complete training module *)
Definition create_module `{PyRuntime} (formatted_time : string)
    (crop region problem : string) (language : value) : result ModuleResult :=
  let crop_info := get_crop_details crop in
  let problem_solution := get_problem_solution problem in
  let ai_available := check_ai_availability in
  ai_insight ← (if ai_available then generate_ai_insight crop region problem
                else Ok EmptyString);
  let module_content :=
    String.concat "" (module_segments crop_info problem_solution ai_available
                        ai_insight formatted_time region problem language) in
  Ok {|
    content := strip module_content;
    metadata := {|
      generation_time := formatted_time;
      meta_crop := crop;
      meta_region := region;
      meta_problem := problem;
      meta_language := language;
      ai_used := ai_available
    |}
  |}.

End TrainingModuleBuilder.

(** ** The [/generate] route *)

(** What the handler does besides answering: lines sent to the console and
    calls into the builder. *)
Inductive event : Type :=
  | Printed (text : string)
  | CreateModuleCalled (crop region problem : string) (language : value).

Record response : Type := {
  status : Z;
  body : value
}.

Module Route.
Import TrainingModuleBuilder Str.

(** [d.get(key, default)] *)
Definition get (d : value) (key : string) (default : value) : result value :=
  match d with
  | VDict entries =>
      Ok (match entries !! key with Some v => v | None => default end)
  | _ => Raise (no_attribute d "get")
  end.

(** [v.strip()] *)
Definition strip_value (v : value) : result string :=
  match v with
  | VStr s => Ok (strip s)
  | _ => Raise (no_attribute v "strip")
  end.

(** [jsonify({...})] of a dictionary literal *)
Definition jsonify (entries : list (string * value)) : value :=
  VDict (list_to_map entries).

Definition validation_failure : response := {|
  status := 400;
  body := jsonify [
    ("success", VBool false);
    ("error", VStr "Please fill in all fields: Crop, Region, and Problem")
  ]
|}.

Definition internal_failure : response := {|
  status := 500;
  body := jsonify [
    ("success", VBool false);
    ("error", VStr "Could not generate training module. Please try again.")
  ]
|}.

Definition success `{PyRuntime} (crop_type region_name problem_type : string)
    (language_pref : value) (module_data : ModuleResult) : response := {|
  status := 200;
  body := jsonify [
    ("success", VBool true);
    ("data", jsonify [
       ("title", VStr (str_title crop_type +:+ " Farming Training Module"));
       ("subtitle", VStr ("Region: " +:+ region_name +:+ " | Focus: "
                          +:+ str_title problem_type));
       ("content", VStr (content module_data));
       ("language", language_pref)
     ]);
    ("system_info", jsonify [
       ("generated_at", VStr (generation_time (metadata module_data)));
       ("ai_assistance", VBool (ai_used (metadata module_data)))
     ])
  ]
|}.

(** The four reads at the top of the [try] block, in order. *)
Definition extract (request_data : value) : result (string * string * string * value) :=
  crop_type ← get request_data "crop" (VStr "") ≫= strip_value;
  region_name ← get request_data "region" (VStr "") ≫= strip_value;
  problem_type ← get request_data "problem" (VStr "") ≫= strip_value;
  language_pref ← get request_data "language" (VStr "English");
  Ok (crop_type, region_name, problem_type, language_pref).

(** The five lines of the [print] calls before the builder is called. *)
Definition announce `{PyRuntime} (crop_type region_name problem_type : string)
    (language_pref : value) : list string := [
  LF +:+ "Creating training module for:";
  "  Crop: " +:+ crop_type;
  "  Region: " +:+ region_name;
  "  Problem: " +:+ problem_type;
  "  Language: " +:+ format_value language_pref
].

(** [print] line after line: the lines written, and the exception of the
    first [print] that raises, after which no line is written. *)
Fixpoint print_all `{PyRuntime} (lines : list string) : list event * option exn :=
  match lines with
  | [] => ([], None)
  | line :: rest =>
      match print_raises line with
      | Some error => ([], Some error)
      | None =>
          let '(printed, raised) := print_all rest in
          (Printed line :: printed, raised)
      end
  end.

(** The [print] of the [except] block. Its line is taken to be written:
    the exceptions the [try] block raises carry ASCII messages (an
    [AttributeError] names a type and a method, a [UnicodeEncodeError]
    escapes the character it names). *)
Definition report (error : exn) : event :=
  Printed ("Error creating module: " +:+ exn_message error).

(** Create and return a training module. [get_json] is the outcome of
    [request.get_json()]; the result is the trace of the call and the
    answer sent. *)
Definition generate_training_module `{PyRuntime} (formatted_time : string)
    (get_json : result value) : list event * response :=
  match get_json ≫= extract with
  | Raise error => ([report error], internal_failure)
  | Ok (crop_type, region_name, problem_type, language_pref) =>
      if negb (str_bool crop_type) || negb (str_bool region_name)
         || negb (str_bool problem_type)
      then ([], validation_failure)
      else
        match print_all (announce crop_type region_name problem_type
                           language_pref) with
        | (printed, Some error) => (printed ++ [report error], internal_failure)
        | (printed, None) =>
            let trace :=
              printed
              ++ [CreateModuleCalled crop_type region_name problem_type
                    language_pref] in
            match create_module formatted_time crop_type region_name problem_type
                                language_pref with
            | Raise error => (trace ++ [report error], internal_failure)
            | Ok module_data =>
                (trace, success crop_type region_name problem_type language_pref
                                module_data)
            end
        end
  end.

(** The core was entered during the call. *)
Definition core_invoked (trace : list event) : Prop :=
  exists crop region problem language,
    CreateModuleCalled crop region problem language ∈ trace.

End Route.

(** ** Facts about strings *)

Module StrFacts.
Import Str.

Lemma app_cons c s t : String c s +:+ t = String c (s +:+ t).
Proof. reflexivity. Qed.

Lemma app_empty_l s : "" +:+ s = s.
Proof. reflexivity. Qed.

Lemma app_empty_r s : s +:+ "" = s.
Proof. induction s as [|c s IH]; [reflexivity|]. by rewrite app_cons, IH. Qed.

Lemma app_assoc s t u : (s +:+ t) +:+ u = s +:+ t +:+ u.
Proof. induction s as [|c s IH]; [reflexivity|]. by rewrite !app_cons, IH. Qed.

Lemma concat_single s : String.concat "" [s] = s.
Proof. reflexivity. Qed.

Lemma concat_cons s t l :
  String.concat "" (s :: t :: l) = s +:+ String.concat "" (t :: l).
Proof. reflexivity. Qed.

(** *** Substrings *)

Lemma contains_refl s : contains s s.
Proof. exists "", "". by rewrite app_empty_l, app_empty_r. Qed.

Lemma contains_app_l needle s t : contains needle s -> contains needle (s +:+ t).
Proof.
  intros (before & after & ->). exists before, (after +:+ t).
  by rewrite !app_assoc.
Qed.

Lemma contains_app_r needle s t : contains needle t -> contains needle (s +:+ t).
Proof.
  intros (before & after & ->). exists (s +:+ before), after.
  by rewrite !app_assoc.
Qed.

Lemma contains_trans a b c : contains a b -> contains b c -> contains a c.
Proof.
  intros Hab (before & after & ->).
  by apply contains_app_r, contains_app_l.
Qed.

Lemma prefix_app needle hay :
  String.prefix needle hay = true -> exists rest, hay = needle +:+ rest.
Proof.
  revert hay. induction needle as [|c needle IH]; intros hay H.
  - by exists hay.
  - destruct hay as [|d hay]; [done|]. simpl in H.
    destruct (ascii_dec c d) as [->|]; [|done].
    destruct (IH _ H) as [rest ->]. by exists rest.
Qed.

Lemma prefix_contains needle hay :
  String.prefix needle hay = true -> contains needle hay.
Proof.
  intros H. destruct (prefix_app _ _ H) as [rest ->].
  exists "", rest. by rewrite app_empty_l.
Qed.

Lemma containsb_sound needle hay :
  containsb needle hay = true -> contains needle hay.
Proof.
  induction hay as [|c hay IH]; cbn [containsb]; intros H;
    apply orb_true_iff in H as [H|H]; auto using prefix_contains; [done|].
  apply (contains_app_r _ (of_ascii c) hay), IH, H.
Qed.

Lemma contains_nonempty needle hay :
  needle <> "" -> contains needle hay -> hay <> "".
Proof.
  intros Hn (before & after & ->).
  destruct before; [|done]. destruct needle; done.
Qed.

End StrFacts.

Module StripFacts.
Import Str StrFacts.

(** A byte that belongs to no white-space character: ASCII, not a space. *)
Definition is_solid (c : ascii) : bool :=
  (N_of_ascii c <? 128)%N && negb (is_ascii_space c).

Fixpoint has_solid (s : string) : bool :=
  match s with
  | EmptyString => false
  | String c s1 => is_solid c || has_solid s1
  end.

Ltac bools :=
  repeat match goal with
    | H : _ && _ = true |- _ => apply andb_true_iff in H as [? ?]
    | H : _ || _ = true |- _ => apply orb_true_iff in H as [?|?]
    | H : negb _ = true |- _ => apply negb_true_iff in H
    | H : (_ =? _)%N = true |- _ => apply N.eqb_eq in H
    | H : (_ <=? _)%N = true |- _ => apply N.leb_le in H
    | H : (_ <? _)%N = true |- _ => apply N.ltb_lt in H
    end.

Lemma solid_not_space c : is_solid c = true -> is_ascii_space c = false.
Proof. unfold is_solid. intros. by bools. Qed.

Lemma space_not_solid c : is_ascii_space c = true -> is_solid c = false.
Proof. unfold is_solid. intros ->. apply andb_false_r. Qed.

Lemma high_not_solid c : (128 <= N_of_ascii c)%N -> is_solid c = false.
Proof.
  intros. unfold is_solid. apply andb_false_iff. left. by apply N.ltb_ge.
Qed.

Lemma space2_not_solid c d :
  is_space2 c d = true -> is_solid c = false /\ is_solid d = false.
Proof.
  unfold is_space2. intros. bools; split; apply high_not_solid; lia.
Qed.

Lemma space3_not_solid c d e :
  is_space3 c d e = true ->
  is_solid c = false /\ is_solid d = false /\ is_solid e = false.
Proof.
  unfold is_space3. intros. bools; repeat split; apply high_not_solid; lia.
Qed.

Lemma has_solid_app_r s t : has_solid t = true -> has_solid (s +:+ t) = true.
Proof.
  intros Ht. induction s as [|c s IH]; [done|].
  rewrite app_cons. cbn [has_solid]. rewrite IH. apply orb_true_r.
Qed.

(** [lstrip] removes no solid byte. *)
Lemma has_solid_lstrip s : has_solid s = true -> has_solid (lstrip s) = true.
Proof.
  remember (S (String.length s)) as n eqn:Hn.
  assert (Hlt : (String.length s < n)%nat) by lia. clear Hn.
  revert s Hlt. induction n as [|n IH]; intros s Hlt Hs; [lia|].
  destruct s as [|c s1]; [done|]. cbn [lstrip has_solid String.length] in *.
  destruct (is_ascii_space c) eqn:Hc.
  { apply IH; [lia|]. by rewrite (space_not_solid _ Hc) in Hs. }
  destruct s1 as [|d s2]; [done|]. cbn [has_solid String.length] in *.
  destruct (is_space2 c d) eqn:H2.
  { apply IH; [lia|]. destruct (space2_not_solid _ _ H2) as [Hc' Hd'].
    by rewrite Hc', Hd' in Hs. }
  destruct s2 as [|e s3]; [done|]. cbn [has_solid String.length] in *.
  destruct (is_space3 c d e) eqn:H3; [|done].
  apply IH; [lia|]. destruct (space3_not_solid _ _ _ H3) as (Hc' & Hd' & He').
  by rewrite Hc', Hd', He' in Hs.
Qed.

Lemma not_blank s : has_solid s = true -> is_blank s = false.
Proof.
  intros Hs. apply has_solid_lstrip in Hs. unfold is_blank.
  by destruct (lstrip s).
Qed.

Lemma lstrip_space c s : is_ascii_space c = true -> lstrip (String c s) = lstrip s.
Proof. intros Hc. cbn [lstrip]. by rewrite Hc. Qed.

Lemma lstrip_solid c s : is_solid c = true -> lstrip (String c s) = String c s.
Proof.
  intros Hc. cbn [lstrip]. rewrite (solid_not_space _ Hc).
  destruct s as [|d [|e s]]; try done.
  - destruct (is_space2 c d) eqn:H2; [|done].
    apply space2_not_solid in H2 as [? _]. congruence.
  - destruct (is_space2 c d) eqn:H2.
    { apply space2_not_solid in H2 as [? _]. congruence. }
    destruct (is_space3 c d e) eqn:H3; [|done].
    apply space3_not_solid in H3 as [? _]. congruence.
Qed.

(** [rstrip] stops at the last solid byte. *)
Lemma rstrip_app s t : has_solid t = true -> rstrip (s +:+ t) = s +:+ rstrip t.
Proof.
  intros Ht. induction s as [|c s IH]; [done|].
  rewrite !app_cons. cbn [rstrip]. rewrite IH, not_blank; [done|].
  cbn [has_solid]. rewrite has_solid_app_r by done. apply orb_true_r.
Qed.

End StripFacts.

(** ** Facts about the insight selector *)

Module AIFacts.
Import AISystem.

Lemma insights_length crop region problem :
  length (insights crop region problem) = 4%nat.
Proof. reflexivity. Qed.

Lemma list_getitem_in_range {A} (items : list A) (i : Z) :
  0 <= i < Z.of_nat (length items) ->
  exists x, items !! Z.to_nat i = Some x /\ list_getitem items i = Ok x.
Proof.
  intros Hi. unfold list_getitem.
  destruct (lookup_lt_is_Some_2 items (Z.to_nat i)) as [x Hx]; [lia|].
  exists x. split; [done|].
  rewrite (proj2 (Z.ltb_ge i 0)) by lia.
  rewrite (proj2 (Z.ltb_ge i 0)), (proj2 (Z.leb_gt _ i)) by lia.
  cbn [orb]. by rewrite Hx.
Qed.

(** The selector returns, and what it returns is the template at
    position [hash mod 4]. *)
Lemma generate_ai_insight_ok `{PyRuntime} crop region problem :
  let i := str_hash (crop +:+ region +:+ problem) `mod` 4 in
  exists insight,
    insights crop region problem !! Z.to_nat i = Some insight
    /\ generate_ai_insight crop region problem = Ok insight.
Proof.
  intros i. unfold generate_ai_insight, py_mod.
  rewrite insights_length. change (Z.of_nat 4 =? 0) with false.
  cbn [mbind result_bind]. fold i.
  destruct (list_getitem_in_range (insights crop region problem) i)
    as (insight & Hlook & Hget).
  { rewrite insights_length. apply Z.mod_pos_bound. lia. }
  eauto.
Qed.


End AIFacts.

(** ** Facts about the assembled document *)

Module BuilderFacts.
Import AgricultureExpert AISystem TrainingModuleBuilder Str StrFacts StripFacts.

Definition drop_first (s : string) : string :=
  match s with
  | EmptyString => EmptyString
  | String _ s1 => s1
  end.

Fixpoint drop_last (s : string) : string :=
  match s with
  | EmptyString => EmptyString
  | String c EmptyString => EmptyString
  | String c s1 => String c (drop_last s1)
  end.

Fixpoint map_last (f : string -> string) (l : list string) : list string :=
  match l with
  | [] => []
  | [s] => [f s]
  | s :: l1 => s :: map_last f l1
  end.

(** The segments of the document once [strip] has removed the line feed
    at each end of the text. *)
Definition trimmed (segments : list string) : list string :=
  match segments with
  | [] => []
  | s :: l => drop_first s :: map_last drop_last l
  end.

Lemma has_solid_concat l :
  has_solid (List.last l "") = true -> has_solid (String.concat "" l) = true.
Proof.
  induction l as [|s [|t l] IH]; [done..|]. intros Hl.
  rewrite concat_cons. apply has_solid_app_r, IH, Hl.
Qed.

Lemma rstrip_concat l :
  has_solid (List.last l "") = true ->
  rstrip (String.concat "" l) = String.concat "" (map_last rstrip l).
Proof.
  induction l as [|s [|t l] IH]; [done..|]. intros Hl.
  change (map_last rstrip (s :: t :: l)) with (s :: map_last rstrip (t :: l)).
  rewrite concat_cons, rstrip_app by by apply has_solid_concat.
  rewrite IH by done. by destruct l.
Qed.

Lemma strip_module_segments `{PyRuntime} crop_info problem_solution ai_available
    ai_insight formatted_time region problem language :
  strip (String.concat "" (module_segments crop_info problem_solution ai_available
           ai_insight formatted_time region problem language))
  = String.concat "" (trimmed (module_segments crop_info problem_solution
           ai_available ai_insight formatted_time region problem language)).
Proof.
  unfold module_segments, strip, trimmed.
  rewrite concat_cons. do 2 rewrite app_cons.
  rewrite lstrip_space, lstrip_solid by reflexivity.
  rewrite <- app_cons, <- concat_cons.
  rewrite rstrip_concat by (vm_compute; reflexivity).
  reflexivity.
Qed.

End BuilderFacts.

(** ** The knowledge base *)

Module KnowledgeBase.
Import AgricultureExpert.

(** C2. A name whose lower-casing is one of the keys "rice", "wheat",
    "tomato" gets that key's predefined crop profile, and a name whose
    lower-casing is one of "irrigation", "pest control", "soil health" gets
    that key's predefined problem profile. Only the lower-cased name is
    matched, so inputs that differ in casing alone get the same profile. *)
Theorem lookup_recognized `{PyRuntime} (input key : string) :
  str_lower input = key ->
  (forall profile,
     (key, profile) ∈ [("rice", rice); ("wheat", wheat); ("tomato", tomato)] ->
     get_crop_details input = profile)
  /\ (forall profile,
     (key, profile) ∈ [("irrigation", irrigation); ("pest control", pest_control);
                       ("soil health", soil_health)] ->
     get_problem_solution input = profile).
Proof.
  intros Hkey. unfold get_crop_details, get_problem_solution. rewrite Hkey.
  split; intros profile Hin; repeat apply elem_of_cons in Hin as [[= -> ->]|Hin];
    try reflexivity; by apply elem_of_nil in Hin.
Qed.

(** "RICE", "Rice" and "rice" all get the rice profile, and "Pest Control"
    the pest-control profile. *)
Lemma lookup_recognized_witness :
  let R := cpython 0 in
  get_crop_details "RICE" = rice
  /\ get_crop_details "Rice" = rice
  /\ get_crop_details "rice" = rice
  /\ get_problem_solution "Pest Control" = pest_control.
Proof.
  intros R. split; [|split; [|split]].
  - apply (lookup_recognized "RICE" "rice"); [reflexivity | set_solver].
  - apply (lookup_recognized "Rice" "rice"); [reflexivity | set_solver].
  - apply (lookup_recognized "rice" "rice"); [reflexivity | set_solver].
  - apply (lookup_recognized "Pest Control" "pest control"); [reflexivity | set_solver].
Defined.

(** C3. Both lookups are total functions. A crop name whose lower-casing is
    none of the three crop keys gets the generated default profile, named by
    the title-cased input; a problem name whose lower-casing is none of the
    three problem keys gets the default problem profile. *)
Theorem lookup_unrecognized `{PyRuntime} (input : string) :
  (str_lower input ∉ ["rice"; "wheat"; "tomato"] ->
   get_crop_details input = {|
     name := str_title input;
     season := "Adapt to local season";
     water := "Based on local conditions";
     spacing := "Follow seed packet instructions";
     duration := "Varies by variety"
   |})
  /\ (str_lower input ∉ ["irrigation"; "pest control"; "soil health"] ->
   get_problem_solution input = {|
     key_techniques := ["Integrated approach"; "Regular monitoring"];
     steps := ["Assess situation"; "Plan solution"; "Implement carefully"];
     benefits := "Improved crop health and yield"
   |}).
Proof.
  unfold get_crop_details, get_problem_solution, CROP_INFO, PROBLEM_SOLUTIONS.
  split; intros Hkey; rewrite !not_elem_of_cons in Hkey;
    destruct Hkey as (? & ? & ? & _);
    by rewrite !lookup_insert_ne, lookup_empty by done.
Qed.

(** "quinoa" is no crop key and "drought stress" no problem key. *)
Lemma lookup_unrecognized_witness :
  let R := cpython 0 in
  name (get_crop_details "quinoa") = "Quinoa"
  /\ season (get_crop_details "quinoa") = "Adapt to local season"
  /\ benefits (get_problem_solution "drought stress") = "Improved crop health and yield".
Proof.
  intros R.
  destruct (lookup_unrecognized "quinoa") as [Hcrop _].
  destruct (lookup_unrecognized "drought stress") as [_ Hproblem].
  rewrite Hcrop, Hproblem; [done | compute_done | compute_done].
Defined.

End KnowledgeBase.

(** ** The module builder *)

Module Builder.
Import AgricultureExpert AISystem TrainingModuleBuilder Str.
Import StrFacts StripFacts AIFacts BuilderFacts.

Lemma contains_concat_hd needle s l :
  contains needle s -> contains needle (String.concat "" (s :: l)).
Proof.
  destruct l as [|t l]; [done|]. rewrite concat_cons. apply contains_app_l.
Qed.

Lemma contains_concat_tl needle s t l :
  contains needle (String.concat "" (t :: l)) ->
  contains needle (String.concat "" (s :: t :: l)).
Proof. rewrite concat_cons. apply contains_app_r. Qed.

(** Finds the segment of a document that holds a given literal. *)
Ltac find_segment :=
  repeat first
    [ apply contains_concat_hd, containsb_sound; vm_compute; reflexivity
    | apply contains_concat_tl ].

(** The eight section headings of the document. *)
Definition section_markers : list string := [
  "## 🌾 ABOUT THIS CROP";
  "## 🎯 FOCUS AREA: ";
  "### RECOMMENDED TECHNIQUES:";
  "### STEP-BY-STEP GUIDE:";
  "## 📊 EXPECTED RESULTS";
  "## 🛠️ IMPLEMENTATION TIPS";
  "## ❓ FREQUENTLY ASKED QUESTIONS";
  "## 🔧 SYSTEM INFORMATION"
].

(** The text of a document: the segments, without the line feed at each
    end. *)
Definition document `{PyRuntime} (crop_info : CropProfile)
    (problem_solution : ProblemProfile) (ai_available : bool)
    (ai_insight formatted_time region problem : string) (language : value) : string :=
  String.concat "" (trimmed (module_segments crop_info problem_solution ai_available
    ai_insight formatted_time region problem language)).

Lemma document_sections `{PyRuntime} crop_info problem_solution ai_available
    ai_insight formatted_time region problem language :
  Forall (fun marker => contains marker
            (document crop_info problem_solution ai_available ai_insight
                      formatted_time region problem language))
         section_markers.
Proof.
  unfold document, module_segments. cbn [trimmed map_last drop_first].
  repeat apply Forall_cons_2; [find_segment.. | apply Forall_nil_2].
Qed.

(** [create_module] returns: the insight is the template the hash selects,
    the content is the document built around it, the metadata repeats the
    arguments. *)
Lemma create_module_ok `{PyRuntime} formatted_time crop region problem language :
  exists insight,
    insights crop region problem
      !! Z.to_nat (str_hash (crop +:+ region +:+ problem) `mod` 4) = Some insight
    /\ create_module formatted_time crop region problem language = Ok {|
         content := document (get_crop_details crop) (get_problem_solution problem)
                      true insight formatted_time region problem language;
         metadata := {|
           generation_time := formatted_time;
           meta_crop := crop;
           meta_region := region;
           meta_problem := problem;
           meta_language := language;
           ai_used := true
         |}
       |}.
Proof.
  destruct (generate_ai_insight_ok crop region problem) as (insight & Hsel & Hgen).
  exists insight. split; [done|].
  unfold create_module, check_ai_availability. rewrite Hgen.
  cbn [mbind result_bind]. by rewrite strip_module_segments.
Qed.

(** C1. For every crop, region, problem and language, [create_module]
    returns a result whose content is not empty and holds the heading of
    each of the eight sections of the document, whether or not the crop and
    the problem are known to the knowledge base. *)
Theorem create_module_sections `{PyRuntime} (formatted_time crop region problem : string)
    (language : value) :
  exists module_data,
    create_module formatted_time crop region problem language = Ok module_data
    /\ content module_data <> ""
    /\ Forall (fun marker => contains marker (content module_data)) section_markers.
Proof.
  destruct (create_module_ok formatted_time crop region problem language)
    as (insight & _ & ->).
  eexists. split; [reflexivity|]. cbn [content].
  pose proof (document_sections (get_crop_details crop) (get_problem_solution problem)
                true insight formatted_time region problem language) as Hall.
  split; [|done].
  apply Forall_cons_1 in Hall as [Hfirst _].
  eapply contains_nonempty; [|exact Hfirst]. done.
Qed.

Lemma contains_concat_3 s1 s2 s3 l :
  contains (s1 +:+ s2 +:+ s3) (String.concat "" (s1 :: s2 :: s3 :: l)).
Proof.
  destruct l as [|t l].
  - rewrite !concat_cons, concat_single. apply contains_refl.
  - rewrite 3!concat_cons.
    replace (s1 +:+ s2 +:+ s3 +:+ String.concat "" (t :: l))
      with ((s1 +:+ s2 +:+ s3) +:+ String.concat "" (t :: l))
      by by rewrite !app_assoc.
    apply contains_app_l, contains_refl.
Qed.

(** Finds three consecutive segments of a document. *)
Ltac find_span :=
  repeat first [ apply contains_concat_3 | apply contains_concat_tl ].

(** C4. The metadata of the result of [create_module] repeats the four
    arguments as they were given and has [ai_used] true, for every input;
    [check_ai_availability] is true. For crop "Rice", region "Punjab",
    problem "irrigation" and language "English" the content holds "Rice",
    "Punjab" and the list of the irrigation techniques. *)
Theorem create_module_metadata `{PyRuntime} (formatted_time crop region problem : string)
    (language : value) :
  check_ai_availability = true
  /\ (exists module_data,
        create_module formatted_time crop region problem language = Ok module_data
        /\ metadata module_data = {|
             generation_time := formatted_time;
             meta_crop := crop;
             meta_region := region;
             meta_problem := problem;
             meta_language := language;
             ai_used := true
           |})
  /\ (str_lower "Rice" = "rice" -> str_lower "irrigation" = "irrigation" ->
      exists module_data,
        create_module formatted_time "Rice" "Punjab" "irrigation" (VStr "English")
          = Ok module_data
        /\ metadata module_data = {|
             generation_time := formatted_time;
             meta_crop := "Rice";
             meta_region := "Punjab";
             meta_problem := "irrigation";
             meta_language := VStr "English";
             ai_used := true
           |}
        /\ contains "Rice" (content module_data)
        /\ contains "Punjab" (content module_data)
        /\ contains "Drip irrigation • Sprinkler systems • Rainwater harvesting"
                    (content module_data)).
Proof.
  split; [reflexivity|]. split.
  - destruct (create_module_ok formatted_time crop region problem language)
      as (insight & _ & ->). eexists. split; reflexivity.
  - intros Hrice Hirrigation.
    destruct (create_module_ok formatted_time "Rice" "Punjab" "irrigation"
                (VStr "English")) as (insight & _ & ->).
    eexists. split; [reflexivity|]. split; [reflexivity|]. cbn [content].
    unfold get_crop_details, get_problem_solution.
    rewrite Hrice, Hirrigation.
    change (CROP_INFO !! "rice") with (Some rice).
    change (PROBLEM_SOLUTIONS !! "irrigation") with (Some irrigation).
    generalize (str_upper "irrigation") (str_upper "Punjab"). intros up1 up2.
    unfold document, module_segments. cbn [trimmed map_last drop_first].
    split; [|split]; find_segment.
Qed.

(** The scenario in a CPython process with hash randomisation off. *)
Lemma create_module_metadata_witness :
  let R := cpython 0 in
  exists module_data,
    create_module "04 November 2026, 09:30 AM" "Rice" "Punjab" "irrigation"
      (VStr "English") = Ok module_data
    /\ meta_crop (metadata module_data) = "Rice"
    /\ ai_used (metadata module_data) = true
    /\ contains "Rice" (content module_data)
    /\ contains "Punjab" (content module_data).
Proof.
  intros R.
  destruct (create_module_metadata "04 November 2026, 09:30 AM" "Rice" "Punjab"
              "irrigation" (VStr "English")) as (_ & _ & Hscenario).
  destruct (Hscenario eq_refl eq_refl) as (module_data & Hrun & Hmeta & ? & ? & _).
  exists module_data. rewrite Hmeta. repeat split; assumption.
Defined.

End Builder.

(** ** The insight selector *)

Module Insight.
Import AgricultureExpert AISystem TrainingModuleBuilder Str.
Import StrFacts StripFacts AIFacts BuilderFacts Builder.

(** C5. Two calls of [generate_ai_insight] with the same crop, region and
    problem in one process return the same string, and that string is one
    of the four templates: the one at position [hash mod 4] of the list. A
    process fixes [hash]; nothing else of the interpreter plays a part, so
    the two calls may find it in any other state ([earlier], [later]). *)
Theorem generate_ai_insight_deterministic (earlier later : PyRuntime)
    (crop region problem crop' region' problem' : string) :
  crop = crop' -> region = region' -> problem = problem' ->
  @str_hash earlier (crop +:+ region +:+ problem)
  = @str_hash later (crop' +:+ region' +:+ problem') ->
  exists template,
    template ∈ [
      "AI analysis suggests focusing on " +:+ region +:+ "-specific adaptation for "
        +:+ crop +:+ ".";
      "Machine learning models indicate integrated approach works best for "
        +:+ problem +:+ ".";
      "Data patterns show " +:+ crop +:+ " responds well to timely " +:+ problem
        +:+ " management.";
      "AI recommendation: Combine traditional knowledge with modern techniques."
    ]
    /\ insights crop region problem
         !! Z.to_nat (@str_hash earlier (crop +:+ region +:+ problem) `mod` 4)
       = Some template
    /\ @generate_ai_insight earlier crop region problem = Ok template
    /\ @generate_ai_insight later crop' region' problem' = Ok template.
Proof.
  intros <- <- <- Hhash.
  destruct (@generate_ai_insight_ok earlier crop region problem)
    as (template & Hsel & Hrun).
  destruct (@generate_ai_insight_ok later crop region problem)
    as (template' & Hsel' & Hrun').
  rewrite <- Hhash in Hsel'.
  assert (template' = template) as -> by congruence.
  exists template. split; [|split; [exact Hsel | split; assumption] ].
  apply list_elem_of_lookup_2 in Hsel. exact Hsel.
Qed.

(** The same process with another console and other case tables. *)
Definition quiet_process : PyRuntime := {|
  str_lower := fun s => s;
  str_upper := fun s => s;
  str_title := fun s => s;
  str_hash := CPython.seeded_hash 0;
  container_str := fun _ => "";
  print_raises := fun _ => None
|}.

Lemma generate_ai_insight_deterministic_witness :
  exists template,
    template = "AI analysis suggests focusing on Punjab-specific adaptation for Rice."
    /\ @generate_ai_insight (cpython 0) "Rice" "Punjab" "irrigation" = Ok template
    /\ @generate_ai_insight quiet_process "Rice" "Punjab" "irrigation" = Ok template.
Proof.
  destruct (generate_ai_insight_deterministic (cpython 0) quiet_process
              "Rice" "Punjab" "irrigation" "Rice" "Punjab" "irrigation"
              eq_refl eq_refl eq_refl eq_refl)
    as (template & _ & Hsel & Hearlier & Hlater).
  exists template. split; [|split; assumption].
  vm_compute in Hsel. congruence.
Defined.

(** The template depends on the process: with another hash key the same
    arguments select another template. *)
Lemma insight_varies_with_process :
  @generate_ai_insight (cpython 0) "Rice" "Punjab" "irrigation"
    = Ok "AI analysis suggests focusing on Punjab-specific adaptation for Rice."
  /\ @generate_ai_insight (cpython 42) "Rice" "Punjab" "irrigation"
    = Ok "AI recommendation: Combine traditional knowledge with modern techniques.".
Proof. split; vm_compute; reflexivity. Qed.

(** C6, as the code has it. [generate_ai_insight] hashes the concatenation
    of the three arguments as given; the hash is a signed integer and may be
    negative; the index [hash mod 4], taken with the sign of the divisor, is
    in 0..3 all the same, so the call never fails and returns the template
    at that index of the list of four. *)
Theorem generate_ai_insight_selects `{PyRuntime} (crop region problem : string) :
  let templates := [
    "AI analysis suggests focusing on " +:+ region +:+ "-specific adaptation for "
      +:+ crop +:+ ".";
    "Machine learning models indicate integrated approach works best for "
      +:+ problem +:+ ".";
    "Data patterns show " +:+ crop +:+ " responds well to timely " +:+ problem
      +:+ " management.";
    "AI recommendation: Combine traditional knowledge with modern techniques."
  ] in
  let index := str_hash (crop +:+ region +:+ problem) `mod` 4 in
  insights crop region problem = templates
  /\ 0 <= index < 4
  /\ exists template,
       templates !! Z.to_nat index = Some template
       /\ generate_ai_insight crop region problem = Ok template.
Proof.
  intros templates index. split; [reflexivity|]. split.
  - apply Z.mod_pos_bound. lia.
  - apply generate_ai_insight_ok.
Qed.

(** In a CPython process with hash randomisation off the hash of
    "RicePunjabirrigation" is negative; the index is 0. *)
Lemma hash_is_negative :
  @str_hash (cpython 0) ("Rice" +:+ "Punjab" +:+ "irrigation") = -7598409245528420
  /\ @str_hash (cpython 0) ("Rice" +:+ "Punjab" +:+ "irrigation") < 0
  /\ @generate_ai_insight (cpython 0) "Rice" "Punjab" "irrigation"
     = Ok "AI analysis suggests focusing on Punjab-specific adaptation for Rice.".
Proof. split; [|split]; vm_compute; reflexivity. Qed.



End Insight.

(** ** The route *)

Module Boundary.
Import AgricultureExpert AISystem TrainingModuleBuilder Str Route.
Import StrFacts StripFacts AIFacts BuilderFacts Builder.

(** A required field read as text: an absent field reads as the empty
    string, a string as itself, anything else is no text. *)
Definition text_field (entries : gmap string value) (key : string) : option string :=
  match entries !! key with
  | None => Some ""
  | Some (VStr s) => Some s
  | Some _ => None
  end.

(** [v[key]] on the body of an answer. *)
Definition field (v : value) (key : string) : option value :=
  match v with
  | VDict entries => entries !! key
  | _ => None
  end.

Definition language_of (entries : gmap string value) : value :=
  match entries !! "language" with
  | Some v => v
  | None => VStr "English"
  end.

Lemma str_bool_false s : str_bool s = false <-> s = "".
Proof. by destruct s. Qed.

Lemma str_bool_true s : str_bool s = true <-> s <> "".
Proof. by destruct s. Qed.

Lemma read_text entries key s :
  text_field entries key = Some s ->
  get (VDict entries) key (VStr "") ≫= strip_value = Ok (strip s).
Proof.
  unfold text_field, get. destruct (entries !! key) as [[]|]; intros [= <-]; reflexivity.
Qed.

Lemma read_no_text entries key :
  text_field entries key = None ->
  exists error, get (VDict entries) key (VStr "") ≫= strip_value = Raise error.
Proof.
  unfold text_field, get.
  destruct (entries !! key) as [[]|]; intros [=]; eexists; reflexivity.
Qed.

Lemma extract_text entries crop region problem :
  text_field entries "crop" = Some crop ->
  text_field entries "region" = Some region ->
  text_field entries "problem" = Some problem ->
  extract (VDict entries)
  = Ok (strip crop, strip region, strip problem, language_of entries).
Proof.
  intros Hc Hr Hp. unfold extract.
  rewrite (read_text _ _ _ Hc). cbn [mbind result_bind].
  rewrite (read_text _ _ _ Hr). cbn [mbind result_bind].
  rewrite (read_text _ _ _ Hp). cbn [mbind result_bind].
  unfold get, language_of. by destruct (entries !! "language").
Qed.

(** Every line of the list can be written to the console. *)
Definition all_written `{PyRuntime} (lines : list string) : Prop :=
  Forall (fun line => print_raises line = None) lines.

Lemma print_all_written `{PyRuntime} lines :
  all_written lines -> print_all lines = (Printed <$> lines, None).
Proof.
  induction 1 as [|line lines Hline _ IH]; [reflexivity|].
  cbn [print_all]. rewrite Hline, IH. reflexivity.
Qed.

(** [print_all] leaves printed lines only. *)
Lemma print_all_printed `{PyRuntime} lines printed raised e :
  print_all lines = (printed, raised) -> e ∈ printed -> exists line, e = Printed line.
Proof.
  revert printed. induction lines as [|line lines IH]; intros printed; cbn [print_all].
  - intros [= <- _] Hin. by apply elem_of_nil in Hin.
  - destruct (print_raises line).
    { intros [= <- _] Hin. by apply elem_of_nil in Hin. }
    destruct (print_all lines) as [printed' raised'].
    intros [= <- <-] Hin. apply elem_of_cons in Hin as [->|Hin]; [by eexists|].
    exact (IH printed' eq_refl Hin).
Qed.

Lemma print_all_cases `{PyRuntime} lines :
  (all_written lines /\ print_all lines = (Printed <$> lines, None))
  \/ (exists printed error, print_all lines = (printed, Some error)).
Proof.
  induction lines as [|line lines IH]; [left; split; [constructor | reflexivity] |].
  cbn [print_all]. destruct (print_raises line) as [error|] eqn:Hline.
  { right. by eexists _, _. }
  destruct IH as [ [Hall ->] | (printed & error & ->) ].
  - left. split; [by constructor | reflexivity].
  - right. by eexists _, _.
Qed.

Lemma no_call_printed `{PyRuntime} lines printed raised crop region problem language :
  print_all lines = (printed, raised) ->
  CreateModuleCalled crop region problem language ∉ printed.
Proof.
  intros Hprint Hin.
  destruct (print_all_printed _ _ _ _ Hprint Hin) as [line [=] ].
Qed.

(** A request with a blank required field is answered at once. *)
Lemma generate_blank `{PyRuntime} formatted_time entries crop region problem :
  text_field entries "crop" = Some crop ->
  text_field entries "region" = Some region ->
  text_field entries "problem" = Some problem ->
  strip crop = "" \/ strip region = "" \/ strip problem = "" ->
  generate_training_module formatted_time (Ok (VDict entries))
  = ([], validation_failure).
Proof.
  intros Hc Hr Hp Hblank. unfold generate_training_module.
  change (Ok (VDict entries) ≫= extract) with (extract (VDict entries)).
  rewrite (extract_text _ _ _ _ Hc Hr Hp).
  rewrite <- !str_bool_false in Hblank.
  destruct Hblank as [Hb | [Hb | Hb] ]; rewrite Hb; cbn [negb orb];
    rewrite ?orb_true_r; reflexivity.
Qed.

(** A request with its three required fields filled in, whose five lines
    the console takes, reaches the builder. *)
Lemma generate_filled `{PyRuntime} formatted_time entries crop region problem :
  text_field entries "crop" = Some crop ->
  text_field entries "region" = Some region ->
  text_field entries "problem" = Some problem ->
  strip crop <> "" -> strip region <> "" -> strip problem <> "" ->
  all_written (announce (strip crop) (strip region) (strip problem)
                 (language_of entries)) ->
  exists module_data,
    create_module formatted_time (strip crop) (strip region) (strip problem)
      (language_of entries) = Ok module_data
    /\ metadata module_data = {|
         generation_time := formatted_time;
         meta_crop := strip crop;
         meta_region := strip region;
         meta_problem := strip problem;
         meta_language := language_of entries;
         ai_used := true
       |}
    /\ generate_training_module formatted_time (Ok (VDict entries))
       = ((Printed <$> announce (strip crop) (strip region) (strip problem)
                         (language_of entries))
          ++ [CreateModuleCalled (strip crop) (strip region) (strip problem)
                (language_of entries)],
          success (strip crop) (strip region) (strip problem) (language_of entries)
            module_data).
Proof.
  intros Hc Hr Hp Hc' Hr' Hp' Hwritten.
  destruct (create_module_ok formatted_time (strip crop) (strip region)
              (strip problem) (language_of entries)) as (insight & _ & Hmodule).
  eexists. split; [exact Hmodule|]. split; [reflexivity|].
  unfold generate_training_module.
  change (Ok (VDict entries) ≫= extract) with (extract (VDict entries)).
  rewrite (extract_text _ _ _ _ Hc Hr Hp).
  apply str_bool_true in Hc', Hr', Hp'. rewrite Hc', Hr', Hp'. cbn [negb orb].
  rewrite (print_all_written _ Hwritten), Hmodule. reflexivity.
Qed.

(** A request with its three required fields filled in, one of whose five
    lines the console refuses, fails before the builder is called. *)
Lemma generate_unwritten `{PyRuntime} formatted_time entries crop region problem
    printed error :
  text_field entries "crop" = Some crop ->
  text_field entries "region" = Some region ->
  text_field entries "problem" = Some problem ->
  strip crop <> "" -> strip region <> "" -> strip problem <> "" ->
  print_all (announce (strip crop) (strip region) (strip problem)
               (language_of entries)) = (printed, Some error) ->
  generate_training_module formatted_time (Ok (VDict entries))
  = (printed ++ [report error], internal_failure).
Proof.
  intros Hc Hr Hp Hc' Hr' Hp' Hprint. unfold generate_training_module.
  change (Ok (VDict entries) ≫= extract) with (extract (VDict entries)).
  rewrite (extract_text _ _ _ _ Hc Hr Hp).
  apply str_bool_true in Hc', Hr', Hp'. rewrite Hc', Hr', Hp'. cbn [negb orb].
  rewrite Hprint. reflexivity.
Qed.

Lemma not_invoked_nil : ~ core_invoked [].
Proof. intros (? & ? & ? & ? & Hin). by apply elem_of_nil in Hin. Qed.

Lemma core_call_in_trace crop region problem language (trace : list event) :
  CreateModuleCalled crop region problem language
    ∈ trace ++ [CreateModuleCalled crop region problem language].
Proof. apply elem_of_app. right. apply list_elem_of_singleton. reflexivity. Qed.


Definition blank_request : gmap string value :=
  <["crop" := VStr "Rice"]> (<["region" := VStr "   "]> (<["problem" := VStr "irrigation"]> ∅)).

Definition filled_request : gmap string value :=
  <["crop" := VStr " Rice "]> (<["region" := VStr "Punjab"]>
    (<["problem" := VStr "irrigation"]> ∅)).

(** The five lines of a request for rice in Punjab are ASCII: a UTF-8
    console takes them. *)
Lemma filled_request_written :
  @all_written (cpython 0) (@announce (cpython 0) "Rice" "Punjab" "irrigation"
                              (VStr "English")).
Proof. repeat constructor. Qed.






(** The four courses a request can take. *)
Inductive course `{PyRuntime} (formatted_time : string) (get_json : result value)
    : list event * response -> Prop :=
  | Failed error :
      get_json ≫= extract = Raise error ->
      course formatted_time get_json ([report error], internal_failure)
  | Refused entries crop region problem :
      get_json = Ok (VDict entries) ->
      text_field entries "crop" = Some crop ->
      text_field entries "region" = Some region ->
      text_field entries "problem" = Some problem ->
      strip crop = "" \/ strip region = "" \/ strip problem = "" ->
      course formatted_time get_json ([], validation_failure)
  | Unwritten entries crop region problem printed error :
      get_json = Ok (VDict entries) ->
      text_field entries "crop" = Some crop ->
      text_field entries "region" = Some region ->
      text_field entries "problem" = Some problem ->
      strip crop <> "" -> strip region <> "" -> strip problem <> "" ->
      print_all (announce (strip crop) (strip region) (strip problem)
                   (language_of entries)) = (printed, Some error) ->
      course formatted_time get_json (printed ++ [report error], internal_failure)
  | Served entries crop region problem module_data :
      get_json = Ok (VDict entries) ->
      text_field entries "crop" = Some crop ->
      text_field entries "region" = Some region ->
      text_field entries "problem" = Some problem ->
      strip crop <> "" -> strip region <> "" -> strip problem <> "" ->
      all_written (announce (strip crop) (strip region) (strip problem)
                     (language_of entries)) ->
      create_module formatted_time (strip crop) (strip region) (strip problem)
        (language_of entries) = Ok module_data ->
      metadata module_data = {|
        generation_time := formatted_time;
        meta_crop := strip crop;
        meta_region := strip region;
        meta_problem := strip problem;
        meta_language := language_of entries;
        ai_used := true
      |} ->
      course formatted_time get_json
        ((Printed <$> announce (strip crop) (strip region) (strip problem)
                        (language_of entries))
         ++ [CreateModuleCalled (strip crop) (strip region) (strip problem)
               (language_of entries)],
         success (strip crop) (strip region) (strip problem) (language_of entries)
           module_data).

Lemma extract_no_text entries :
  text_field entries "crop" = None \/ text_field entries "region" = None
  \/ text_field entries "problem" = None ->
  exists error, extract (VDict entries) = Raise error.
Proof.
  intros Hno. unfold extract.
  destruct (text_field entries "crop") as [crop|] eqn:Hc.
  2:{ destruct (read_no_text _ _ Hc) as [error ->]. by exists error. }
  rewrite (read_text _ _ _ Hc). cbn [mbind result_bind].
  destruct (text_field entries "region") as [region|] eqn:Hr.
  2:{ destruct (read_no_text _ _ Hr) as [error ->]. by exists error. }
  rewrite (read_text _ _ _ Hr). cbn [mbind result_bind].
  destruct (text_field entries "problem") as [problem|] eqn:Hp.
  2:{ destruct (read_no_text _ _ Hp) as [error ->]. by exists error. }
  destruct Hno as [? | [? | ?] ]; discriminate.
Qed.

Lemma generate_raise `{PyRuntime} formatted_time get_json error :
  get_json ≫= extract = Raise error ->
  generate_training_module formatted_time get_json
  = ([report error], internal_failure).
Proof. intros Hraise. unfold generate_training_module. by rewrite Hraise. Qed.

(** Every request takes one of the four courses. *)
Lemma generate_course `{PyRuntime} formatted_time get_json :
  course formatted_time get_json (generate_training_module formatted_time get_json).
Proof.
  destruct get_json as [payload|error].
  2:{ rewrite (generate_raise _ _ error) by reflexivity. by apply Failed. }
  destruct payload as [| | | | |items|entries];
    try (rewrite (generate_raise _ _ (no_attribute _ "get")) by reflexivity;
         by apply Failed).
  destruct (text_field entries "crop") as [crop|] eqn:Hc.
  2:{ destruct (extract_no_text entries) as [error Herr]; [by left|].
      rewrite (generate_raise _ _ error) by exact Herr. by apply Failed. }
  destruct (text_field entries "region") as [region|] eqn:Hr.
  2:{ destruct (extract_no_text entries) as [error Herr]; [by right; left|].
      rewrite (generate_raise _ _ error) by exact Herr. by apply Failed. }
  destruct (text_field entries "problem") as [problem|] eqn:Hp.
  2:{ destruct (extract_no_text entries) as [error Herr]; [by right; right|].
      rewrite (generate_raise _ _ error) by exact Herr. by apply Failed. }
  destruct (decide (strip crop = "")) as [Hc'|Hc'].
  { rewrite (generate_blank _ _ _ _ _ Hc Hr Hp) by by left.
    eapply Refused; eauto. }
  destruct (decide (strip region = "")) as [Hr'|Hr'].
  { rewrite (generate_blank _ _ _ _ _ Hc Hr Hp) by by right; left.
    eapply Refused; eauto. }
  destruct (decide (strip problem = "")) as [Hp'|Hp'].
  { rewrite (generate_blank _ _ _ _ _ Hc Hr Hp) by by right; right.
    eapply Refused; eauto. }
  destruct (print_all_cases (announce (strip crop) (strip region) (strip problem)
                               (language_of entries)))
    as [ [Hwritten _] | (printed & error & Hprint) ].
  - destruct (generate_filled formatted_time _ _ _ _ Hc Hr Hp Hc' Hr' Hp' Hwritten)
      as (module_data & Hmodule & Hmeta & ->).
    eapply Served; eauto.
  - rewrite (generate_unwritten formatted_time _ _ _ _ _ _ Hc Hr Hp Hc' Hr' Hp' Hprint).
    eapply Unwritten; eauto.
Qed.

Lemma printed_no_call (lines : list string) crop region problem language :
  CreateModuleCalled crop region problem language ∉ Printed <$> lines.
Proof.
  intros Hin. apply list_elem_of_fmap in Hin as (line & [=] & _).
Qed.

(** The one call of the builder in the trace of a served request. *)
Lemma served_call (lines : list string) crop region problem language c r p l :
  CreateModuleCalled c r p l
    ∈ (Printed <$> lines) ++ [CreateModuleCalled crop region problem language] ->
  c = crop /\ r = region /\ p = problem /\ l = language.
Proof.
  rewrite elem_of_app, list_elem_of_singleton. intros [Hin|[= -> -> -> ->]].
  - by apply printed_no_call in Hin.
  - repeat split.
Qed.

(** A call of the builder in the trace tells the whole course of the
    request. *)
Lemma called_served `{PyRuntime} formatted_time get_json c r p l :
  CreateModuleCalled c r p l ∈ (generate_training_module formatted_time get_json).1 ->
  exists entries crop region problem module_data,
    get_json = Ok (VDict entries)
    /\ (text_field entries "crop" = Some crop
        /\ text_field entries "region" = Some region
        /\ text_field entries "problem" = Some problem)
    /\ (c = strip crop /\ r = strip region /\ p = strip problem
        /\ l = language_of entries)
    /\ (c <> "" /\ r <> "" /\ p <> "")
    /\ create_module formatted_time c r p l = Ok module_data
    /\ (generate_training_module formatted_time get_json).2
       = success c r p l module_data.
Proof.
  destruct (generate_course formatted_time get_json) as
    [ error _
    | entries crop region problem _ _ _ _ _
    | entries crop region problem printed error _ _ _ _ _ _ _ Hprint
    | entries crop region problem module_data Hjson Hc Hr Hp Hc' Hr' Hp' _ Hmodule _ ];
    cbn [fst snd]; intros Hin.
  - apply list_elem_of_singleton in Hin. discriminate.
  - by apply elem_of_nil in Hin.
  - apply elem_of_app in Hin as [Hin|Hin].
    + by apply (no_call_printed _ _ _ _ _ _ _ Hprint) in Hin.
    + apply list_elem_of_singleton in Hin. discriminate.
  - apply served_call in Hin as (-> & -> & -> & ->).
    exists entries, crop, region, problem, module_data.
    repeat split; assumption.
Qed.

(** An answer with status 200 comes after a call of the builder. *)
Lemma served_called `{PyRuntime} formatted_time get_json :
  status (generate_training_module formatted_time get_json).2 = 200 ->
  core_invoked (generate_training_module formatted_time get_json).1.
Proof.
  destruct (generate_course formatted_time get_json); cbn [fst snd];
    try discriminate.
  intros _. do 4 eexists. apply core_call_in_trace.
Qed.

Lemma language_of_absent entries :
  entries !! "language" = None -> language_of entries = VStr "English".
Proof. unfold language_of. by intros ->. Qed.

Lemma language_of_present entries v :
  entries !! "language" = Some v -> language_of entries = v.
Proof. unfold language_of. by intros ->. Qed.

(** The header of the document shows the language as [format] renders it. *)
Lemma header_language `{PyRuntime} formatted_time crop region problem language
    module_data :
  create_module formatted_time crop region problem language = Ok module_data ->
  meta_language (metadata module_data) = language
  /\ contains (" | Language: " +:+ format_value language +:+ "

### 📅 GENERATED ON: ") (content module_data).
Proof.
  destruct (create_module_ok formatted_time crop region problem language)
    as (insight & _ & ->).
  intros [= <-]. split; [reflexivity|]. cbn [content].
  unfold document, module_segments.
  cbn [trimmed map_last drop_first]. find_span.
Qed.

Lemma served_status `{PyRuntime} formatted_time entries crop region problem :
  text_field entries "crop" = Some crop ->
  text_field entries "region" = Some region ->
  text_field entries "problem" = Some problem ->
  strip crop <> "" /\ strip region <> "" /\ strip problem <> "" ->
  all_written (announce (strip crop) (strip region) (strip problem)
                 (language_of entries)) ->
  status (generate_training_module formatted_time (Ok (VDict entries))).2 = 200.
Proof.
  intros Hc Hr Hp (Hc' & Hr' & Hp') Hwritten.
  destruct (generate_filled formatted_time _ _ _ _ Hc Hr Hp Hc' Hr' Hp' Hwritten)
    as (module_data & _ & _ & ->).
  reflexivity.
Qed.

(** What the trace and the answer of a request say about its language. *)
Lemma language_carried `{PyRuntime} formatted_time entries :
  let run := generate_training_module formatted_time (Ok (VDict entries)) in
  (forall crop region problem used,
     CreateModuleCalled crop region problem used ∈ run.1 ->
     used = language_of entries
     /\ (exists raw_crop raw_region raw_problem,
           (text_field entries "crop" = Some raw_crop
            /\ text_field entries "region" = Some raw_region
            /\ text_field entries "problem" = Some raw_problem)
           /\ crop = strip raw_crop /\ region = strip raw_region
           /\ problem = strip raw_problem)
     /\ exists module_data,
          create_module formatted_time crop region problem (language_of entries)
            = Ok module_data
          /\ meta_language (metadata module_data) = language_of entries
          /\ contains (" | Language: " +:+ format_value (language_of entries) +:+ "

### 📅 GENERATED ON: ") (content module_data)
          /\ run.2 = success crop region problem (language_of entries) module_data)
  /\ (status run.2 = 200 ->
      core_invoked run.1
      /\ field (body run.2) "data" ≫= (fun data => field data "language")
         = Some (language_of entries)).
Proof.
  intros run. split.
  - intros crop region problem used Hin.
    apply called_served in Hin
      as (entries' & raw_crop & raw_region & raw_problem & module_data & [= <-]
          & Htext & (-> & -> & -> & ->) & _ & Hmodule & Hanswer).
    split; [reflexivity|]. split.
    { exists raw_crop, raw_region, raw_problem. repeat split; apply Htext. }
    exists module_data. split; [exact Hmodule|].
    destruct (header_language _ _ _ _ _ _ Hmodule) as [Hmeta Hheader].
    split; [exact Hmeta|]. split; [exact Hheader | exact Hanswer].
  - intros Hstatus. pose proof (served_called _ _ Hstatus) as Hcalled.
    split; [exact Hcalled|].
    destruct Hcalled as (crop & region & problem & used & Hin).
    apply called_served in Hin
      as (entries' & _ & _ & _ & module_data & [= <-] & _ & (_ & _ & _ & ->) & _ & _
          & Hanswer).
    subst run. rewrite Hanswer. reflexivity.
Qed.

(** C8. When the payload has no "language", the module of the request is
    built with the language "English": every call of the builder gets it,
    the metadata of the module carries it, the header of the document shows
    it, and every answer with status 200 carries it in its data. A request
    whose three fields are filled in, and whose five lines the console
    takes, gets such an answer. The default of the [language] parameter of
    [create_module] is "English" too. "crop", "region" and "problem" have no
    such default: a request that lacks one of them builds no module and is
    refused (status 400, or 500 when another field is no string). *)
Theorem language_defaults_to_english `{PyRuntime} (formatted_time : string)
    (entries : gmap string value) :
  entries !! "language" = None ->
  let run := generate_training_module formatted_time (Ok (VDict entries)) in
  default_language = VStr "English"
  /\ (forall crop region problem used,
        CreateModuleCalled crop region problem used ∈ run.1 ->
        used = VStr "English"
        /\ exists module_data,
             create_module formatted_time crop region problem (VStr "English")
               = Ok module_data
             /\ meta_language (metadata module_data) = VStr "English"
             /\ contains " | Language: English

### 📅 GENERATED ON: " (content module_data)
             /\ run.2 = success crop region problem (VStr "English") module_data)
  /\ (status run.2 = 200 ->
      core_invoked run.1
      /\ field (body run.2) "data" ≫= (fun data => field data "language")
         = Some (VStr "English"))
  /\ (forall crop region problem,
        text_field entries "crop" = Some crop ->
        text_field entries "region" = Some region ->
        text_field entries "problem" = Some problem ->
        strip crop <> "" /\ strip region <> "" /\ strip problem <> "" ->
        Forall (fun line => print_raises line = None) [
          LF +:+ "Creating training module for:";
          "  Crop: " +:+ strip crop;
          "  Region: " +:+ strip region;
          "  Problem: " +:+ strip problem;
          "  Language: English"
        ] ->
        status run.2 = 200)
  /\ (entries !! "crop" = None \/ entries !! "region" = None
      \/ entries !! "problem" = None ->
      ~ core_invoked run.1 /\ (status run.2 = 400 \/ status run.2 = 500)).
Proof.
  intros Hlang run. split; [reflexivity|].
  destruct (language_carried formatted_time entries) as [Hcalls Hserved].
  rewrite (language_of_absent _ Hlang) in Hcalls, Hserved.
  split; [|split; [exact Hserved|split] ].
  - intros crop region problem used Hin.
    destruct (Hcalls crop region problem used Hin) as (-> & _ & Hmodule).
    split; [reflexivity | exact Hmodule].
  - intros crop region problem Hc Hr Hp Hfilled Hwritten.
    apply (served_status formatted_time entries crop region problem Hc Hr Hp Hfilled).
    rewrite (language_of_absent _ Hlang). exact Hwritten.
  - intros Habsent.
    assert (forall crop region problem,
              text_field entries "crop" = Some crop ->
              text_field entries "region" = Some region ->
              text_field entries "problem" = Some problem ->
              strip crop = "" \/ strip region = "" \/ strip problem = "") as Hblank.
    { intros crop region problem. unfold text_field.
      destruct Habsent as [Ha | [Ha | Ha] ]; rewrite Ha; intros Hc Hr Hp.
      - left. by injection Hc as <-.
      - right. left. by injection Hr as <-.
      - right. right. by injection Hp as <-. }
    subst run.
    destruct (generate_course formatted_time (Ok (VDict entries))) as
      [ error _
      | entries' crop region problem _ _ _ _ _
      | entries' crop region problem printed error [= <-] Hc Hr Hp Hc' Hr' Hp' _
      | entries' crop region problem module_data [= <-] Hc Hr Hp Hc' Hr' Hp' _ _ _ ];
      cbn [fst snd].
    + split; [|right; reflexivity].
      intros (? & ? & ? & ? & Hin). apply list_elem_of_singleton in Hin. discriminate.
    + split; [apply not_invoked_nil | left; reflexivity].
    + destruct (Hblank _ _ _ Hc Hr Hp) as [? | [? | ?] ]; contradiction.
    + destruct (Hblank _ _ _ Hc Hr Hp) as [? | [? | ?] ]; contradiction.
Qed.

Definition no_language_request : gmap string value :=
  <["crop" := VStr "Rice"]> (<["region" := VStr "Punjab"]>
    (<["problem" := VStr "irrigation"]> ∅)).

Lemma language_defaults_to_english_witness :
  let R := cpython 0 in
  let run := generate_training_module "04 November 2026, 09:30 AM"
               (Ok (VDict no_language_request)) in
  status run.2 = 200
  /\ field (body run.2) "data" ≫= (fun data => field data "language")
     = Some (VStr "English").
Proof.
  intros R run.
  destruct (language_defaults_to_english "04 November 2026, 09:30 AM"
              no_language_request eq_refl) as (_ & _ & Hdata & Hserved & _).
  assert (status run.2 = 200) as Hstatus.
  { apply (Hserved "Rice" "Punjab" "irrigation" eq_refl eq_refl eq_refl).
    - split; [|split]; discriminate.
    - repeat constructor. }
  split; [exact Hstatus | exact (proj2 (Hdata Hstatus))].
Defined.

(** C10. When the payload has a "language", its value is used as it is:
    "crop", "region" and "problem" are trimmed, the language is not; it is
    not checked and no default replaces it. Every call of the builder gets
    the value, the metadata of the module and the data of every answer with
    status 200 carry it unchanged, and the header of the document shows it
    as [format] renders it: a string as it is, blank or empty included, and
    the null value as the text None. A request whose three fields are filled
    in, and whose five lines the console takes, gets such an answer. *)
Theorem language_used_verbatim `{PyRuntime} (formatted_time : string)
    (entries : gmap string value) (language : value) :
  entries !! "language" = Some language ->
  let run := generate_training_module formatted_time (Ok (VDict entries)) in
  (forall crop region problem used,
     CreateModuleCalled crop region problem used ∈ run.1 ->
     used = language
     /\ (exists raw_crop raw_region raw_problem,
           (text_field entries "crop" = Some raw_crop
            /\ text_field entries "region" = Some raw_region
            /\ text_field entries "problem" = Some raw_problem)
           /\ crop = strip raw_crop /\ region = strip raw_region
           /\ problem = strip raw_problem)
     /\ exists module_data,
          create_module formatted_time crop region problem language = Ok module_data
          /\ meta_language (metadata module_data) = language
          /\ contains (" | Language: " +:+ format_value language +:+ "

### 📅 GENERATED ON: ") (content module_data)
          /\ run.2 = success crop region problem language module_data)
  /\ (status run.2 = 200 ->
      core_invoked run.1
      /\ field (body run.2) "data" ≫= (fun data => field data "language")
         = Some language)
  /\ (forall crop region problem,
        text_field entries "crop" = Some crop ->
        text_field entries "region" = Some region ->
        text_field entries "problem" = Some problem ->
        strip crop <> "" /\ strip region <> "" /\ strip problem <> "" ->
        Forall (fun line => print_raises line = None) [
          LF +:+ "Creating training module for:";
          "  Crop: " +:+ strip crop;
          "  Region: " +:+ strip region;
          "  Problem: " +:+ strip problem;
          "  Language: " +:+ format_value language
        ] ->
        status run.2 = 200)
  /\ (forall text, language = VStr text -> format_value language = text)
  /\ (language = VNone -> format_value language = "None").
Proof.
  intros Hlang run.
  destruct (language_carried formatted_time entries) as [Hcalls Hserved].
  rewrite (language_of_present _ _ Hlang) in Hcalls, Hserved.
  split; [exact Hcalls|]. split; [exact Hserved|]. split.
  - intros crop region problem Hc Hr Hp Hfilled Hwritten.
    apply (served_status formatted_time entries crop region problem Hc Hr Hp Hfilled).
    rewrite (language_of_present _ _ Hlang). exact Hwritten.
  - split; intros; subst language; reflexivity.
Qed.

Definition blank_language_request : gmap string value :=
  <["language" := VStr "  "]> no_language_request.

Definition null_language_request : gmap string value :=
  <["language" := VNone]> no_language_request.

Lemma language_used_verbatim_witness :
  let R := cpython 0 in
  let blank := generate_training_module "04 November 2026, 09:30 AM"
                 (Ok (VDict blank_language_request)) in
  let null := generate_training_module "04 November 2026, 09:30 AM"
                (Ok (VDict null_language_request)) in
  (status blank.2 = 200
   /\ field (body blank.2) "data" ≫= (fun data => field data "language")
      = Some (VStr "  "))
  /\ (status null.2 = 200
      /\ field (body null.2) "data" ≫= (fun data => field data "language")
         = Some VNone).
Proof.
  intros R blank null. split.
  - destruct (language_used_verbatim "04 November 2026, 09:30 AM"
                blank_language_request (VStr "  ") eq_refl)
      as (_ & Hdata & Hserved & _).
    assert (status blank.2 = 200) as Hstatus.
    { apply (Hserved "Rice" "Punjab" "irrigation" eq_refl eq_refl eq_refl).
      - split; [|split]; discriminate.
      - repeat constructor. }
    split; [exact Hstatus | exact (proj2 (Hdata Hstatus))].
  - destruct (language_used_verbatim "04 November 2026, 09:30 AM"
                null_language_request VNone eq_refl)
      as (_ & Hdata & Hserved & _).
    assert (status null.2 = 200) as Hstatus.
    { apply (Hserved "Rice" "Punjab" "irrigation" eq_refl eq_refl eq_refl).
      - split; [|split]; discriminate.
      - repeat constructor. }
    split; [exact Hstatus | exact (proj2 (Hdata Hstatus))].
Defined.

End Boundary.

(** ** More facts about [strip] *)

Module TrimFacts.
Import Str StrFacts StripFacts.

Lemma lstrip_length s : (String.length (lstrip s) <= String.length s)%nat.
Proof.
  remember (S (String.length s)) as n eqn:Hn.
  assert (Hlt : (String.length s < n)%nat) by lia. clear Hn.
  revert s Hlt. induction n as [|n IH]; intros s Hlt; [lia|].
  destruct s as [|c s1]; [done|]. cbn [lstrip String.length] in *.
  destruct (is_ascii_space c).
  { etrans; [apply IH; lia | lia]. }
  destruct s1 as [|d s2]; [done|]. cbn [String.length] in *.
  destruct (is_space2 c d).
  { etrans; [apply IH; lia | lia]. }
  destruct s2 as [|e s3]; [done|]. cbn [String.length] in *.
  destruct (is_space3 c d e); [|done].
  etrans; [apply IH; lia | lia].
Qed.

(** What [lstrip] leaves does not start with white space. *)
Lemma lstrip_idem s : lstrip (lstrip s) = lstrip s.
Proof.
  remember (S (String.length s)) as n eqn:Hn.
  assert (Hlt : (String.length s < n)%nat) by lia. clear Hn.
  revert s Hlt. induction n as [|n IH]; intros s Hlt; [lia|].
  destruct s as [|c s1]; [done|]. cbn [lstrip String.length] in *.
  destruct (is_ascii_space c) eqn:Hc.
  { apply IH. lia. }
  destruct s1 as [|d s2].
  { cbn [lstrip]. by rewrite Hc. }
  cbn [String.length] in *. destruct (is_space2 c d) eqn:H2.
  { apply IH. lia. }
  destruct s2 as [|e s3].
  { cbn [lstrip]. by rewrite Hc, H2. }
  cbn [String.length] in *. destruct (is_space3 c d e) eqn:H3.
  { apply IH. lia. }
  cbn [lstrip]. by rewrite Hc, H2, H3.
Qed.

(** White space before a text does not change what [lstrip] leaves. *)
Lemma lstrip_blank_app s t : lstrip s = "" -> lstrip (s +:+ t) = lstrip t.
Proof.
  remember (S (String.length s)) as n eqn:Hn.
  assert (Hlt : (String.length s < n)%nat) by lia. clear Hn.
  revert s Hlt. induction n as [|n IH]; intros s Hlt Hs; [lia|].
  destruct s as [|c s1]; [done|].
  rewrite app_cons. cbn [lstrip String.length] in *.
  destruct (is_ascii_space c) eqn:Hc.
  { apply IH; [lia | done]. }
  destruct s1 as [|d s2]; [done|].
  rewrite app_cons. cbn [String.length] in *.
  destruct (is_space2 c d) eqn:H2.
  { apply IH; [lia | done]. }
  destruct s2 as [|e s3]; [done|].
  rewrite app_cons. cbn [String.length] in *.
  destruct (is_space3 c d e) eqn:H3; [|done].
  apply IH; [lia | done].
Qed.

Lemma is_blank_true s : is_blank s = true <-> lstrip s = "".
Proof. unfold is_blank. by destruct (lstrip s). Qed.

Lemma rstrip_empty s : rstrip s = "" <-> is_blank s = true.
Proof.
  destruct s as [|c s1]; [done|]. cbn [rstrip].
  by destruct (is_blank (String c s1)).
Qed.

(** [rstrip] removes a suffix made of white space. *)
Lemma rstrip_split s : exists u, s = rstrip s +:+ u /\ lstrip u = "".
Proof.
  induction s as [|c s1 IH]; [by exists ""|]. cbn [rstrip].
  destruct (is_blank (String c s1)) eqn:Hb.
  - exists (String c s1). split; [done|]. by apply is_blank_true.
  - destruct IH as (u & Hs & Hu). exists u. split; [|done].
    rewrite app_cons. by rewrite <- Hs.
Qed.

Lemma rstrip_idem s : rstrip (rstrip s) = rstrip s.
Proof.
  induction s as [|c s1 IH]; [done|]. cbn [rstrip].
  destruct (is_blank (String c s1)) eqn:Hb; [done|].
  cbn [rstrip]. rewrite IH.
  destruct (is_blank (String c (rstrip s1))) eqn:Hb'; [|done].
  destruct (rstrip_split s1) as (u & Hs & Hu).
  apply is_blank_true in Hb'.
  pose proof (lstrip_blank_app _ u Hb') as Happ.
  rewrite app_cons, <- Hs, Hu in Happ.
  apply is_blank_true in Happ. congruence.
Qed.

(** A text that does not start with white space keeps that under [rstrip]. *)
Lemma lstrip_rstrip s : lstrip s = s -> lstrip (rstrip s) = rstrip s.
Proof.
  intros Hs. destruct s as [|c s1]; [done|].
  destruct (rstrip_split s1) as (u & Hs1 & _).
  cbn [rstrip]. destruct (is_blank (String c s1)); [done|].
  revert Hs. rewrite Hs1 at 1 2. generalize (rstrip s1) as r. intros r.
  pose proof (lstrip_length (r +:+ u)) as Hlen0.
  cbn [lstrip]. destruct (is_ascii_space c) eqn:Hc.
  { intros Heq. apply (f_equal String.length) in Heq. cbn in Heq. lia. }
  destruct r as [|d r2]; [done|]. rewrite app_cons.
  destruct (is_space2 c d) eqn:H2.
  { intros Heq. apply (f_equal String.length) in Heq. cbn in Heq.
    pose proof (lstrip_length (r2 +:+ u)). lia. }
  destruct r2 as [|e r3]; [done|]. rewrite app_cons.
  destruct (is_space3 c d e) eqn:H3; [|done].
  intros Heq. apply (f_equal String.length) in Heq. cbn in Heq.
  pose proof (lstrip_length (r3 +:+ u)). lia.
Qed.

(** [strip] is idempotent. *)
Lemma strip_idem s : strip (strip s) = strip s.
Proof.
  unfold strip. rewrite (lstrip_rstrip (lstrip s)) by apply lstrip_idem.
  apply rstrip_idem.
Qed.

(** [strip] leaves nothing exactly when the text is white space only. *)
Lemma strip_empty s : strip s = "" <-> is_blank s = true.
Proof.
  unfold strip. rewrite rstrip_empty, !is_blank_true, lstrip_idem. done.
Qed.

End TrimFacts.

(** ** Every request *)

Module Handler.
Import AgricultureExpert AISystem TrainingModuleBuilder Str Route.
Import StrFacts StripFacts AIFacts BuilderFacts Builder Boundary TrimFacts.

(** The event is a call into the builder. *)
Definition is_core_call (e : event) : bool :=
  match e with
  | CreateModuleCalled _ _ _ _ => true
  | Printed _ => false
  end.

(** Printed lines hold no call of the builder. *)
Lemma no_core_call_lines (lines : list string) :
  filter (fun e => is_core_call e = true) (Printed <$> lines) = [].
Proof.
  induction lines as [|line lines IH]; [reflexivity|].
  rewrite fmap_cons, filter_cons_False; [exact IH | discriminate].
Qed.

Lemma no_core_call_printed `{PyRuntime} lines printed raised :
  print_all lines = (printed, raised) ->
  filter (fun e => is_core_call e = true) printed = [].
Proof.
  revert printed. induction lines as [|line lines IH]; intros printed; cbn [print_all].
  - intros [= <- _]. reflexivity.
  - destruct (print_raises line).
    { intros [= <- _]. reflexivity. }
    destruct (print_all lines) as [printed' raised'].
    intros [= <- <-]. rewrite filter_cons_False by discriminate.
    exact (IH printed' eq_refl).
Qed.

(** X1. Whatever the request, the answer has one of three shapes: status
    200 with "success" true, status 400 with "success" false and the
    message about the three fields, or status 500 with "success" false and
    the generic message. *)
Theorem generate_answers `{PyRuntime} (formatted_time : string)
    (get_json : result value) :
  let answer := (generate_training_module formatted_time get_json).2 in
  (status answer = 200
   /\ field (body answer) "success" = Some (VBool true)
   /\ field (body answer) "error" = None
   /\ exists text,
        field (body answer) "data" ≫= (fun data => field data "content")
        = Some (VStr text))
  \/ (status answer = 400
      /\ field (body answer) "success" = Some (VBool false)
      /\ field (body answer) "error"
         = Some (VStr "Please fill in all fields: Crop, Region, and Problem")
      /\ field (body answer) "data" = None)
  \/ (status answer = 500
      /\ field (body answer) "success" = Some (VBool false)
      /\ field (body answer) "error"
         = Some (VStr "Could not generate training module. Please try again.")
      /\ field (body answer) "data" = None).
Proof.
  intros answer. subst answer.
  destruct (generate_course formatted_time get_json); cbn [snd].
  - right. right. repeat split.
  - right. left. repeat split.
  - right. right. repeat split.
  - left. split; [reflexivity|]. split; [reflexivity|]. split; [reflexivity|].
    eexists. reflexivity.
Qed.

(** X2. The builder is called exactly when the answer has status 200, and
    at most once in a request. *)
Theorem core_called_iff_served `{PyRuntime} (formatted_time : string)
    (get_json : result value) :
  let run := generate_training_module formatted_time get_json in
  (core_invoked run.1 <-> status run.2 = 200)
  /\ (length (filter (fun e => is_core_call e = true) run.1) <= 1)%nat.
Proof.
  intros run. subst run.
  destruct (generate_course formatted_time get_json) as
    [ | | entries crop region problem printed error _ _ _ _ _ _ _ Hprint | ];
    cbn [fst snd].
  - split; [|etrans; [apply length_filter | reflexivity] ].
    split; [|discriminate].
    intros (? & ? & ? & ? & Hin). apply list_elem_of_singleton in Hin. discriminate.
  - split; [|etrans; [apply length_filter | cbn; lia] ].
    split; [|discriminate].
    intros Hin. by apply not_invoked_nil in Hin.
  - split.
    + split; [|discriminate].
      intros (? & ? & ? & ? & Hin). apply elem_of_app in Hin as [Hin|Hin].
      * by apply (no_call_printed _ _ _ _ _ _ _ Hprint) in Hin.
      * apply list_elem_of_singleton in Hin. discriminate.
    + rewrite filter_app, length_app, (no_core_call_printed _ _ _ Hprint).
      etrans; [apply length_filter | reflexivity].
  - split.
    + split; [reflexivity|]. intros _. do 4 eexists. apply core_call_in_trace.
    + rewrite filter_app, length_app, no_core_call_lines.
      etrans; [apply length_filter | reflexivity].
Qed.

(** X3. A payload that is not an object, or a body [get_json] refuses, gets
    the generic failure; the console shows the text of the exception, which
    for a payload names its type and the missing method "get". *)
Theorem unreadable_payload `{PyRuntime} (formatted_time : string) (payload : value)
    (error : exn) :
  type_name payload <> "dict" ->
  generate_training_module formatted_time (Ok payload)
  = ([Printed ("Error creating module: '" +:+ type_name payload
               +:+ "' object has no attribute 'get'")], internal_failure)
  /\ generate_training_module formatted_time (Raise error)
     = ([Printed ("Error creating module: " +:+ exn_message error)], internal_failure).
Proof.
  intros Htype. split; [|reflexivity].
  destruct payload; try reflexivity. by destruct Htype.
Qed.

Lemma unreadable_payload_witness :
  let R := cpython 0 in
  generate_training_module "04 November 2026, 09:30 AM" (Ok (VList [VStr "Rice"]))
  = ([Printed "Error creating module: 'list' object has no attribute 'get'"],
     internal_failure).
Proof.
  intros R.
  destruct (unreadable_payload "04 November 2026, 09:30 AM" (VList [VStr "Rice"])
              (OtherException "") ltac:(discriminate)) as [Hrun _].
  exact Hrun.
Defined.

(** The read of a required field that is present and no string raises. *)
Lemma read_mistyped entries key v :
  entries !! key = Some v -> type_name v <> "str" ->
  get (VDict entries) key (VStr "") ≫= strip_value = Raise (no_attribute v "strip").
Proof.
  intros Hkey Htype. unfold get. rewrite Hkey.
  destruct v; try reflexivity. by destruct Htype.
Qed.

Lemma text_field_none entries key :
  text_field entries key = None ->
  exists v, entries !! key = Some v /\ type_name v <> "str".
Proof.
  unfold text_field. destruct (entries !! key) as [v|]; [|discriminate].
  intros Hv. exists v. split; [reflexivity|]. destruct v; discriminate.
Qed.

(** X4. When "crop", "region" or "problem" is present in the payload and is
    no string, the answer is the generic failure with status 500, whatever
    the other fields hold: the builder is not called, and the console shows
    that a value of that type has no method "strip". *)
Theorem mistyped_field_fails `{PyRuntime} (formatted_time : string)
    (entries : gmap string value) :
  text_field entries "crop" = None \/ text_field entries "region" = None
  \/ text_field entries "problem" = None ->
  let run := generate_training_module formatted_time (Ok (VDict entries)) in
  run.2 = internal_failure
  /\ status run.2 = 500
  /\ ~ core_invoked run.1
  /\ exists key v,
       key ∈ ["crop"; "region"; "problem"]
       /\ entries !! key = Some v
       /\ type_name v <> "str"
       /\ run.1 = [Printed ("Error creating module: '" +:+ type_name v
                            +:+ "' object has no attribute 'strip'")].
Proof.
  intros Hno run.
  assert (exists key v, key ∈ ["crop"; "region"; "problem"]
            /\ entries !! key = Some v /\ type_name v <> "str"
            /\ extract (VDict entries) = Raise (no_attribute v "strip"))
    as (key & v & Hkey & Hv & Htype & Hraise).
  { unfold extract.
    destruct (text_field entries "crop") as [crop|] eqn:Hc.
    2:{ destruct (text_field_none _ _ Hc) as (v & Hv & Htype).
        exists "crop", v. rewrite (read_mistyped _ _ _ Hv Htype).
        repeat split; [repeat constructor | exact Hv | exact Htype]. }
    rewrite (read_text _ _ _ Hc). cbn [mbind result_bind].
    destruct (text_field entries "region") as [region|] eqn:Hr.
    2:{ destruct (text_field_none _ _ Hr) as (v & Hv & Htype).
        exists "region", v. rewrite (read_mistyped _ _ _ Hv Htype).
        repeat split; [repeat constructor | exact Hv | exact Htype]. }
    rewrite (read_text _ _ _ Hr). cbn [mbind result_bind].
    destruct (text_field entries "problem") as [problem|] eqn:Hp.
    2:{ destruct (text_field_none _ _ Hp) as (v & Hv & Htype).
        exists "problem", v. rewrite (read_mistyped _ _ _ Hv Htype).
        repeat split; [repeat constructor | exact Hv | exact Htype]. }
    destruct Hno as [? | [? | ?] ]; discriminate. }
  subst run. rewrite (generate_raise _ (Ok (VDict entries)) _ Hraise). cbn [fst snd].
  split; [reflexivity|]. split; [reflexivity|]. split.
  - intros (? & ? & ? & ? & Hin). apply list_elem_of_singleton in Hin. discriminate.
  - exists key, v. repeat split; try assumption.
Qed.

Definition null_problem_request : gmap string value :=
  <["crop" := VStr "Rice"]> (<["region" := VStr "Punjab"]> (<["problem" := VNone]> ∅)).

Lemma mistyped_field_fails_witness :
  let R := cpython 0 in
  status (generate_training_module "04 November 2026, 09:30 AM"
            (Ok (VDict null_problem_request))).2 = 500.
Proof.
  intros R.
  destruct (mistyped_field_fails "04 November 2026, 09:30 AM" null_problem_request)
    as (_ & Hstatus & _); [right; right; reflexivity | exact Hstatus].
Defined.

(** X5. Whatever the request, the builder is only ever called with a crop, a
    region and a problem that are not empty and carry no white space at
    either end. *)
Theorem core_arguments_trimmed `{PyRuntime} (formatted_time : string)
    (get_json : result value) (crop region problem : string) (language : value) :
  CreateModuleCalled crop region problem language
    ∈ (generate_training_module formatted_time get_json).1 ->
  (crop <> "" /\ region <> "" /\ problem <> "")
  /\ (strip crop = crop /\ strip region = region /\ strip problem = problem).
Proof.
  intros Hin.
  destruct (called_served _ _ _ _ _ _ Hin) as
    (entries & crop' & region' & problem' & module_data & _ & _
     & (-> & -> & -> & _) & Hfilled & _).
  split; [exact Hfilled|]. repeat split; apply strip_idem.
Qed.

Lemma core_arguments_trimmed_witness :
  let R := cpython 0 in
  strip "Rice" = "Rice" /\ strip "Punjab" = "Punjab".
Proof.
  intros R.
  destruct (core_arguments_trimmed "04 November 2026, 09:30 AM"
              (Ok (VDict filled_request)) "Rice" "Punjab" "irrigation"
              (VStr "English")) as (_ & Hc & Hr & _).
  - destruct (generate_filled "04 November 2026, 09:30 AM" filled_request
                " Rice " "Punjab" "irrigation" eq_refl eq_refl eq_refl)
      as (module_data & _ & _ & ->);
      [discriminate.. | exact filled_request_written |].
    apply core_call_in_trace.
  - split; assumption.
Defined.

(** The handler reads the payload through [extract] only. *)
Lemma generate_same `{PyRuntime} formatted_time get_json get_json' :
  get_json ≫= extract = get_json' ≫= extract ->
  generate_training_module formatted_time get_json
  = generate_training_module formatted_time get_json'.
Proof. intros Hsame. unfold generate_training_module. rewrite Hsame. reflexivity. Qed.

(** X6. White space around "crop", "region" and "problem" plays no part:
    two payloads whose three fields agree once trimmed, and whose languages
    agree (an absent language counting as "English"), get the same answer
    and leave the same trace. *)
Theorem surrounding_space_ignored `{PyRuntime} (formatted_time : string)
    (entries entries' : gmap string value)
    (crop region problem crop' region' problem' : string) :
  text_field entries "crop" = Some crop ->
  text_field entries "region" = Some region ->
  text_field entries "problem" = Some problem ->
  text_field entries' "crop" = Some crop' ->
  text_field entries' "region" = Some region' ->
  text_field entries' "problem" = Some problem' ->
  strip crop = strip crop' -> strip region = strip region' ->
  strip problem = strip problem' ->
  language_of entries = language_of entries' ->
  generate_training_module formatted_time (Ok (VDict entries))
  = generate_training_module formatted_time (Ok (VDict entries')).
Proof.
  intros Hc Hr Hp Hc' Hr' Hp' Hcrop Hregion Hproblem Hlanguage.
  apply generate_same.
  change (extract (VDict entries) = extract (VDict entries')).
  rewrite (extract_text _ _ _ _ Hc Hr Hp), (extract_text _ _ _ _ Hc' Hr' Hp').
  rewrite Hcrop, Hregion, Hproblem, Hlanguage. reflexivity.
Qed.

Definition padded_request : gmap string value :=
  <["crop" := VStr "   Rice"]> (<["region" := VStr "Punjab   "]>
    (<["problem" := VStr " irrigation "]> (<["language" := VStr "English"]> ∅))).

Lemma surrounding_space_ignored_witness :
  let R := cpython 0 in
  generate_training_module "04 November 2026, 09:30 AM" (Ok (VDict filled_request))
  = generate_training_module "04 November 2026, 09:30 AM" (Ok (VDict padded_request)).
Proof.
  intros R.
  exact (surrounding_space_ignored "04 November 2026, 09:30 AM"
           filled_request padded_request
           " Rice " "Punjab" "irrigation" "   Rice" "Punjab   " " irrigation "
           eq_refl eq_refl eq_refl eq_refl eq_refl eq_refl
           eq_refl eq_refl eq_refl eq_refl).
Defined.

(** X7. Only "crop", "region", "problem" and "language" are read: two
    payloads that agree on these four keys get the same answer and leave the
    same trace, whatever else they hold. *)
Theorem other_fields_ignored `{PyRuntime} (formatted_time : string)
    (entries entries' : gmap string value) :
  (forall key, key ∈ ["crop"; "region"; "problem"; "language"] ->
     entries !! key = entries' !! key) ->
  generate_training_module formatted_time (Ok (VDict entries))
  = generate_training_module formatted_time (Ok (VDict entries')).
Proof.
  intros Hsame. apply generate_same.
  change (extract (VDict entries) = extract (VDict entries')).
  unfold extract, get.
  rewrite (Hsame "crop"), (Hsame "region"), (Hsame "problem"), (Hsame "language")
    by repeat constructor.
  reflexivity.
Qed.

Definition annotated_request : gmap string value :=
  <["farm_size" := VInt 12]> (<["notes" := VList [VNone]]> filled_request).

Lemma other_fields_ignored_witness :
  let R := cpython 0 in
  generate_training_module "04 November 2026, 09:30 AM" (Ok (VDict filled_request))
  = generate_training_module "04 November 2026, 09:30 AM" (Ok (VDict annotated_request)).
Proof.
  intros R.
  apply (other_fields_ignored "04 November 2026, 09:30 AM"
           filled_request annotated_request).
  intros key Hkey. rewrite !elem_of_cons, elem_of_nil in Hkey.
  destruct Hkey as [->|[->|[->|[->|[]]]]]; reflexivity.
Defined.

(** X8. Every answer with status 200 carries a complete document: its
    "content" is a text that is not empty and holds the eight section
    headings. *)
Theorem served_document_complete `{PyRuntime} (formatted_time : string)
    (get_json : result value) :
  let answer := (generate_training_module formatted_time get_json).2 in
  status answer = 200 ->
  exists text,
    field (body answer) "data" ≫= (fun data => field data "content")
    = Some (VStr text)
    /\ text <> ""
    /\ Forall (fun marker => contains marker text) section_markers.
Proof.
  intros answer. subst answer.
  destruct (generate_course formatted_time get_json) as
    [ | | | entries crop region problem module_data _ _ _ _ _ _ _ _ Hmodule _];
    cbn [snd]; try discriminate.
  intros _. exists (content module_data). split; [reflexivity|].
  destruct (create_module_ok formatted_time (strip crop) (strip region)
              (strip problem) (language_of entries)) as (insight & _ & Hok).
  rewrite Hok in Hmodule. injection Hmodule as <-. cbn [content].
  pose proof (document_sections (get_crop_details (strip crop))
                (get_problem_solution (strip problem)) true insight formatted_time
                (strip region) (strip problem) (language_of entries)) as Hall.
  split; [|exact Hall].
  apply Forall_cons_1 in Hall as [Hfirst _].
  eapply contains_nonempty; [|exact Hfirst]. discriminate.
Qed.

Lemma served_document_complete_witness :
  let R := cpython 0 in
  exists text,
    field (body (generate_training_module "04 November 2026, 09:30 AM"
                   (Ok (VDict filled_request))).2) "data"
      ≫= (fun data => field data "content") = Some (VStr text)
    /\ text <> "".
Proof.
  intros R.
  assert (status (generate_training_module "04 November 2026, 09:30 AM"
                    (Ok (VDict filled_request))).2 = 200) as Hstatus.
  { apply (served_status "04 November 2026, 09:30 AM" filled_request
             " Rice " "Punjab" "irrigation" eq_refl eq_refl eq_refl).
    - split; [|split]; discriminate.
    - exact filled_request_written. }
  destruct (served_document_complete "04 November 2026, 09:30 AM"
              (Ok (VDict filled_request)) Hstatus) as (text & Htext & Hne & _).
  exists text. split; assumption.
Defined.

(** X9. For a payload whose three required fields are absent or strings,
    the answer is the validation failure exactly when one of the three is
    made of white space only (the empty string included). *)
Theorem refused_iff_blank `{PyRuntime} (formatted_time : string)
    (entries : gmap string value) (crop region problem : string) :
  text_field entries "crop" = Some crop ->
  text_field entries "region" = Some region ->
  text_field entries "problem" = Some problem ->
  let answer := (generate_training_module formatted_time (Ok (VDict entries))).2 in
  status answer = 400
  <-> is_blank crop = true \/ is_blank region = true \/ is_blank problem = true.
Proof.
  intros Hc Hr Hp answer. subst answer. rewrite <- !strip_empty.
  destruct (decide (strip crop = "")) as [Hc'|Hc'].
  { rewrite (generate_blank _ _ _ _ _ Hc Hr Hp) by (left; exact Hc').
    split; [intros _; left; exact Hc' | reflexivity]. }
  destruct (decide (strip region = "")) as [Hr'|Hr'].
  { rewrite (generate_blank _ _ _ _ _ Hc Hr Hp) by (right; left; exact Hr').
    split; [intros _; right; left; exact Hr' | reflexivity]. }
  destruct (decide (strip problem = "")) as [Hp'|Hp'].
  { rewrite (generate_blank _ _ _ _ _ Hc Hr Hp) by (right; right; exact Hp').
    split; [intros _; right; right; exact Hp' | reflexivity]. }
  split; [|intros [? | [? | ?] ]; contradiction].
  destruct (print_all_cases (announce (strip crop) (strip region) (strip problem)
                               (language_of entries)))
    as [ [Hwritten _] | (printed & error & Hprint) ].
  - destruct (generate_filled formatted_time _ _ _ _ Hc Hr Hp Hc' Hr' Hp' Hwritten)
      as (module_data & _ & _ & ->).
    discriminate.
  - rewrite (generate_unwritten formatted_time _ _ _ _ _ _ Hc Hr Hp Hc' Hr' Hp' Hprint).
    discriminate.
Qed.

Lemma refused_iff_blank_witness :
  let R := cpython 0 in
  status (generate_training_module "04 November 2026, 09:30 AM"
            (Ok (VDict blank_request))).2 = 400.
Proof.
  intros R.
  apply (refused_iff_blank "04 November 2026, 09:30 AM" blank_request
           "Rice" "   " "irrigation" eq_refl eq_refl eq_refl).
  right. left. reflexivity.
Defined.

End Handler.
(** ** What the document shows *)

Module Document.
Import AgricultureExpert AISystem TrainingModuleBuilder Str.
Import StrFacts StripFacts AIFacts BuilderFacts Builder TrimFacts.

(** [s.endswith(suffix)], for literals. *)
Fixpoint suffixb (suffix s : string) : bool :=
  String.eqb suffix s ||
  match s with
  | EmptyString => false
  | String _ rest => suffixb suffix rest
  end.

Lemma suffixb_sound suffix s :
  suffixb suffix s = true -> exists before, s = before +:+ suffix.
Proof.
  induction s as [|c s IH]; cbn [suffixb]; intros H;
    apply orb_true_iff in H as [H|H].
  - apply String.eqb_eq in H as ->. by exists "".
  - discriminate.
  - apply String.eqb_eq in H as ->. by exists "".
  - destruct (IH H) as [before ->]. by exists (String c before).
Qed.

(** A value between the end of one literal and the start of the next. *)
Lemma span_fit a b x s1 s3 :
  suffixb a s1 = true -> String.prefix b s3 = true ->
  contains (a +:+ x +:+ b) (s1 +:+ x +:+ s3).
Proof.
  intros Ha Hb. destruct (suffixb_sound _ _ Ha) as [before ->].
  destruct (prefix_app _ _ Hb) as [after ->].
  exists before, after. by rewrite !app_assoc.
Qed.

(** Finds the value [x] of a needle [a +:+ x +:+ b] among the segments. *)
Ltac find_value :=
  lazymatch goal with
  | |- contains (?a +:+ ?x +:+ ?b) (String.concat "" (?s1 :: ?x' :: ?s3 :: ?l)) =>
      first
        [ apply (contains_trans _ (s1 +:+ x' +:+ s3));
          [ apply span_fit; vm_compute; reflexivity | apply contains_concat_3 ]
        | apply contains_concat_tl; find_value ]
  end.

Lemma concat_app l1 l2 :
  l1 <> [] -> l2 <> [] ->
  String.concat "" (l1 ++ l2) = String.concat "" l1 +:+ String.concat "" l2.
Proof.
  intros Hl1 Hl2. induction l1 as [|s [|t l1] IH]; [done| |].
  - destruct l2; [done|]. reflexivity.
  - change ((s :: t :: l1) ++ l2) with (s :: (t :: l1) ++ l2).
    change ((t :: l1) ++ l2) with (t :: l1 ++ l2) at 1.
    rewrite concat_cons. change (t :: l1 ++ l2) with ((t :: l1) ++ l2).
    rewrite IH by done. by rewrite concat_cons, app_assoc.
Qed.

Lemma join_contains sep x l : x ∈ l -> contains x (join sep l).
Proof.
  unfold join. induction l as [|s [|t l] IH]; intros Hin.
  - by apply elem_of_nil in Hin.
  - apply list_elem_of_singleton in Hin as ->. apply contains_refl.
  - apply elem_of_cons in Hin as [->|Hin].
    + apply (contains_app_l _ s (sep +:+ String.concat sep (t :: l))), contains_refl.
    + apply (contains_app_r _ s (sep +:+ String.concat sep (t :: l))).
      apply contains_app_r, IH, Hin.
Qed.

(** Finds a needle that is a whole segment. *)
Ltac find_whole :=
  repeat first
    [ apply contains_concat_hd, contains_refl | apply contains_concat_tl ].

Section Shown.
Context `{PyRuntime}.
Variables (crop_info : CropProfile) (problem_solution : ProblemProfile).
Variables (ai_insight formatted_time region problem : string) (language : value).

Local Abbreviation text :=
  (document crop_info problem_solution true ai_insight formatted_time region
     problem language).

Lemma document_starts :
  exists rest,
    text = "# FARMER TRAINING MODULE
## Crop: " +:+ name crop_info +:+ " | Region: " +:+ region +:+ " | Language: "
      +:+ format_value language +:+ "

### 📅 GENERATED ON: " +:+ formatted_time +:+ rest.
Proof.
  unfold document, module_segments. cbn [trimmed map_last drop_first].
  rewrite 8!concat_cons. eexists. reflexivity.
Qed.

Lemma document_ends :
  exists before,
    text = before +:+ "
*This training module was generated automatically based on agricultural best practices.*
*Always consult local agricultural experts before implementing new techniques.*".
Proof.
  unfold document, module_segments. cbn [trimmed map_last drop_first].
  match goal with
  | |- context [String.concat "" ?l] =>
      change l with (take 40 l ++ drop 40 l)
  end.
  rewrite concat_app by discriminate. cbn [drop].
  match goal with
  | |- context [String.concat "" [?last]] =>
      destruct (suffixb_sound "
*This training module was generated automatically based on agricultural best practices.*
*Always consult local agricultural experts before implementing new techniques.*"
                  last ltac:(vm_compute; reflexivity)) as [before Hlast];
      rewrite concat_single, Hlast
  end.
  eexists. rewrite <- app_assoc. reflexivity.
Qed.

Lemma document_stripped : strip text = text.
Proof.
  unfold document, module_segments, strip.
  cbn [trimmed map_last drop_first].
  rewrite concat_cons, app_cons, lstrip_solid by reflexivity.
  rewrite <- app_cons, <- concat_cons.
  rewrite rstrip_concat by (vm_compute; reflexivity).
  reflexivity.
Qed.

Lemma document_crop_facts :
  contains ("**Crop Name:** " +:+ name crop_info +:+ LF) text
  /\ contains ("**Best Season:** " +:+ season crop_info +:+ LF) text
  /\ contains ("**Water Needs:** " +:+ water crop_info +:+ LF) text
  /\ contains ("**Plant Spacing:** " +:+ spacing crop_info +:+ LF) text
  /\ contains ("**Growth Duration:** " +:+ duration crop_info +:+ LF) text.
Proof.
  unfold document, module_segments. cbn [trimmed map_last drop_first].
  repeat apply conj; find_value.
Qed.

Lemma document_problem_profile :
  contains ("### RECOMMENDED TECHNIQUES:" +:+ LF
            +:+ join " • " (key_techniques problem_solution) +:+ LF) text
  /\ contains ("### KEY BENEFITS:" +:+ LF +:+ benefits problem_solution +:+ LF) text
  /\ Forall (fun technique => contains technique text)
            (key_techniques problem_solution)
  /\ Forall (fun step => contains ("   - " +:+ step) text) (steps problem_solution).
Proof.
  assert (contains (join " • " (key_techniques problem_solution)) text) as Htech.
  { unfold document, module_segments. cbn [trimmed map_last drop_first].
    find_whole. }
  assert (contains (join LF (List.map (fun step => "   - " +:+ step)
                               (steps problem_solution))) text) as Hsteps.
  { unfold document, module_segments. cbn [trimmed map_last drop_first].
    find_whole. }
  split; [|split; [|split] ].
  - unfold document, module_segments. cbn [trimmed map_last drop_first].
    change ("### RECOMMENDED TECHNIQUES:" +:+ LF
            +:+ join " • " (key_techniques problem_solution) +:+ LF)
      with ("### RECOMMENDED TECHNIQUES:
" +:+ join " • " (key_techniques problem_solution) +:+ LF).
    find_value.
  - unfold document, module_segments. cbn [trimmed map_last drop_first].
    change ("### KEY BENEFITS:" +:+ LF +:+ benefits problem_solution +:+ LF)
      with ("### KEY BENEFITS:
" +:+ benefits problem_solution +:+ LF).
    find_value.
  - apply Forall_forall. intros technique Hin.
    exact (contains_trans _ _ _ (join_contains _ _ _ Hin) Htech).
  - apply Forall_forall. intros step Hin.
    refine (contains_trans _ _ _ (join_contains _ _ _ _) Hsteps).
    apply list_elem_of_In, in_map, list_elem_of_In, Hin.
Qed.

Lemma document_inputs :
  contains ("## 🎯 FOCUS AREA: " +:+ str_upper problem +:+ LF) text
  /\ contains ("- Evaluate current " +:+ problem +:+ " conditions") text
  /\ contains ("- " +:+ problem +:+ " management: 40-60% better") text
  /\ contains ("### REGION-SPECIFIC ADVICE FOR " +:+ str_upper region +:+ ":") text
  /\ contains ("- Contact " +:+ region +:+ " Agriculture Department") text.
Proof.
  unfold document, module_segments. cbn [trimmed map_last drop_first].
  repeat apply conj; find_value.
Qed.

Lemma document_generation :
  contains ("GENERATED ON: " +:+ formatted_time +:+ LF) text
  /\ contains ("- Module Created: " +:+ formatted_time +:+ LF) text
  /\ contains "- AI Assistance: Available
- Content Type: Personalized farming guidance
- System Status: Operational" text.
Proof.
  unfold document, module_segments. cbn [trimmed map_last drop_first].
  split; [|split]; [find_value..|].
  change "- AI Assistance: Available
- Content Type: Personalized farming guidance
- System Status: Operational"
    with ("- AI Assistance: " +:+ "Available" +:+ "
- Content Type: Personalized farming guidance
- System Status: Operational").
  find_value.
Qed.

End Shown.

(** The content of a built module is a document around one of the four
    insights. *)
Lemma create_module_document `{PyRuntime} formatted_time crop region problem language :
  exists insight,
    create_module formatted_time crop region problem language = Ok {|
      content := document (get_crop_details crop) (get_problem_solution problem)
                   true insight formatted_time region problem language;
      metadata := {|
        generation_time := formatted_time;
        meta_crop := crop;
        meta_region := region;
        meta_problem := problem;
        meta_language := language;
        ai_used := true
      |}
    |}.
Proof.
  destruct (create_module_ok formatted_time crop region problem language)
    as (insight & _ & Hmodule).
  exists insight. exact Hmodule.
Qed.

(** X10. The content of every module starts with the title line and the
    header line, which shows the name of the crop profile, the region and
    the language as given, then the time; it ends with the two closing
    notes; and it has no white space at either end. *)
Theorem content_frame `{PyRuntime} (formatted_time crop region problem : string)
    (language : value) :
  exists module_data,
    create_module formatted_time crop region problem language = Ok module_data
    /\ (exists rest,
          content module_data = "# FARMER TRAINING MODULE
## Crop: " +:+ name (get_crop_details crop) +:+ " | Region: " +:+ region
            +:+ " | Language: " +:+ format_value language +:+ "

### 📅 GENERATED ON: " +:+ formatted_time +:+ rest)
    /\ (exists before,
          content module_data = before +:+ "
*This training module was generated automatically based on agricultural best practices.*
*Always consult local agricultural experts before implementing new techniques.*")
    /\ strip (content module_data) = content module_data.
Proof.
  destruct (create_module_document formatted_time crop region problem language)
    as (insight & ->).
  eexists. split; [reflexivity|]. cbn [content].
  split; [apply document_starts|]. split; [apply document_ends|].
  apply document_stripped.
Qed.

(** X11. The section about the crop shows the five facts of the profile
    [get_crop_details] returns for the crop, each on its line. *)
Theorem content_crop_facts `{PyRuntime} (formatted_time crop region problem : string)
    (language : value) :
  let crop_info := get_crop_details crop in
  exists module_data,
    create_module formatted_time crop region problem language = Ok module_data
    /\ contains ("**Crop Name:** " +:+ name crop_info +:+ LF) (content module_data)
    /\ contains ("**Best Season:** " +:+ season crop_info +:+ LF) (content module_data)
    /\ contains ("**Water Needs:** " +:+ water crop_info +:+ LF) (content module_data)
    /\ contains ("**Plant Spacing:** " +:+ spacing crop_info +:+ LF)
                (content module_data)
    /\ contains ("**Growth Duration:** " +:+ duration crop_info +:+ LF)
                (content module_data).
Proof.
  intros crop_info.
  destruct (create_module_document formatted_time crop region problem language)
    as (insight & ->).
  eexists. split; [reflexivity|]. cbn [content]. apply document_crop_facts.
Qed.

(** X12. The document shows the profile [get_problem_solution] returns for
    the problem: the techniques joined by " • " on the line under their
    heading, hence each technique; each step as an item "   - step"; and the
    benefits under their heading. *)
Theorem content_problem_profile `{PyRuntime}
    (formatted_time crop region problem : string) (language : value) :
  let solution := get_problem_solution problem in
  exists module_data,
    create_module formatted_time crop region problem language = Ok module_data
    /\ contains ("### RECOMMENDED TECHNIQUES:" +:+ LF
                 +:+ join " • " (key_techniques solution) +:+ LF)
                (content module_data)
    /\ contains ("### KEY BENEFITS:" +:+ LF +:+ benefits solution +:+ LF)
                (content module_data)
    /\ Forall (fun technique => contains technique (content module_data))
              (key_techniques solution)
    /\ Forall (fun step => contains ("   - " +:+ step) (content module_data))
              (steps solution).
Proof.
  intros solution.
  destruct (create_module_document formatted_time crop region problem language)
    as (insight & ->).
  eexists. split; [reflexivity|]. cbn [content]. apply document_problem_profile.
Qed.

(** X13. The document repeats the problem and the region as they were
    given, in the first step of the guide, in the expected results and in
    the local resources, and in upper case in the headings of the focus
    area and of the regional advice. *)
Theorem content_repeats_inputs `{PyRuntime}
    (formatted_time crop region problem : string) (language : value) :
  exists module_data,
    create_module formatted_time crop region problem language = Ok module_data
    /\ contains ("## 🎯 FOCUS AREA: " +:+ str_upper problem +:+ LF)
                (content module_data)
    /\ contains ("- Evaluate current " +:+ problem +:+ " conditions")
                (content module_data)
    /\ contains ("- " +:+ problem +:+ " management: 40-60% better")
                (content module_data)
    /\ contains ("### REGION-SPECIFIC ADVICE FOR " +:+ str_upper region +:+ ":")
                (content module_data)
    /\ contains ("- Contact " +:+ region +:+ " Agriculture Department")
                (content module_data).
Proof.
  destruct (create_module_document formatted_time crop region problem language)
    as (insight & ->).
  eexists. split; [reflexivity|]. cbn [content]. apply document_inputs.
Qed.

(** X14. The document shows the time of generation twice, under the header
    and in the generation details, the same text as the metadata carries,
    and the generation details always say that AI assistance is available. *)
Theorem content_generation_details `{PyRuntime}
    (formatted_time crop region problem : string) (language : value) :
  exists module_data,
    create_module formatted_time crop region problem language = Ok module_data
    /\ generation_time (metadata module_data) = formatted_time
    /\ contains ("GENERATED ON: " +:+ formatted_time +:+ LF) (content module_data)
    /\ contains ("- Module Created: " +:+ formatted_time +:+ LF)
                (content module_data)
    /\ contains "- AI Assistance: Available
- Content Type: Personalized farming guidance
- System Status: Operational" (content module_data).
Proof.
  destruct (create_module_document formatted_time crop region problem language)
    as (insight & ->).
  eexists. split; [reflexivity|]. split; [reflexivity|]. cbn [content].
  apply document_generation.
Qed.

(** X15. For a crop the knowledge base knows, the header shows the name of
    the predefined profile, not the crop as it was typed: whatever the
    casing of the input, a crop that lower-cases to "rice", "wheat" or
    "tomato" is shown as "Rice", "Wheat" or "Tomato". *)
Theorem known_crop_display_name `{PyRuntime}
    (formatted_time crop region problem : string) (language : value)
    (key shown : string) :
  str_lower crop = key ->
  (key, shown) ∈ [("rice", "Rice"); ("wheat", "Wheat"); ("tomato", "Tomato")] ->
  exists module_data rest,
    create_module formatted_time crop region problem language = Ok module_data
    /\ content module_data = "# FARMER TRAINING MODULE
## Crop: " +:+ shown +:+ " | Region: " +:+ region +:+ rest.
Proof.
  intros Hkey Hin.
  destruct (create_module_document formatted_time crop region problem language)
    as (insight & ->).
  destruct (document_starts (get_crop_details crop) (get_problem_solution problem)
              insight formatted_time region problem language) as [rest Hstart].
  assert (name (get_crop_details crop) = shown) as <-.
  { unfold get_crop_details. rewrite Hkey.
    repeat apply elem_of_cons in Hin as [[= -> ->]|Hin]; try reflexivity.
    by apply elem_of_nil in Hin. }
  eexists. eexists. split; [reflexivity|]. cbn [content]. rewrite Hstart.
  reflexivity.
Qed.

Lemma known_crop_display_name_witness :
  let R := cpython 0 in
  exists module_data rest,
    create_module "04 November 2026, 09:30 AM" "rICE" "Punjab" "irrigation"
      (VStr "English") = Ok module_data
    /\ content module_data = "# FARMER TRAINING MODULE
## Crop: " +:+ "Rice" +:+ " | Region: " +:+ "Punjab" +:+ rest.
Proof.
  intros R.
  apply (known_crop_display_name "04 November 2026, 09:30 AM" "rICE" "Punjab"
           "irrigation" (VStr "English") "rice" "Rice"); [reflexivity|].
  repeat constructor.
Defined.

End Document.

(** ** More on the lookups and the selector *)

Module Selection.
Import AgricultureExpert AISystem Str AIFacts.

(** X16. The three arguments are joined without a separator before they
    are hashed, so two calls whose arguments differ but concatenate to the
    same text select the template at the same position. *)
Theorem same_key_same_position `{PyRuntime}
    (crop region problem crop' region' problem' : string) :
  crop +:+ region +:+ problem = crop' +:+ region' +:+ problem' ->
  exists (position : nat) (insight insight' : string),
    insights crop region problem !! position = Some insight
    /\ insights crop' region' problem' !! position = Some insight'
    /\ generate_ai_insight crop region problem = Ok insight
    /\ generate_ai_insight crop' region' problem' = Ok insight'.
Proof.
  intros Hkey.
  destruct (generate_ai_insight_ok crop region problem) as (insight & Hsel & Hrun).
  destruct (generate_ai_insight_ok crop' region' problem')
    as (insight' & Hsel' & Hrun').
  rewrite <- Hkey in Hsel'.
  exists (Z.to_nat (str_hash (crop +:+ region +:+ problem) `mod` 4)), insight, insight'.
  repeat split; assumption.
Qed.

Lemma same_key_same_position_witness :
  let R := cpython 0 in
  exists (position : nat) (insight insight' : string),
    insights "Rice" "Punjab" "irrigation" !! position = Some insight
    /\ insights "RiceP" "unjab" "irrigation" !! position = Some insight'
    /\ generate_ai_insight "Rice" "Punjab" "irrigation" = Ok insight
    /\ generate_ai_insight "RiceP" "unjab" "irrigation" = Ok insight'.
Proof.
  intros R.
  exact (same_key_same_position "Rice" "Punjab" "irrigation"
           "RiceP" "unjab" "irrigation" eq_refl).
Defined.

Lemma to_lower_idem c : to_lower (to_lower c) = to_lower c.
Proof. destruct c as [[] [] [] [] [] [] [] []]; reflexivity. Qed.

Lemma to_upper_lower c : to_upper (to_lower c) = to_upper c.
Proof. destruct c as [[] [] [] [] [] [] [] []]; reflexivity. Qed.

Lemma cased_lower c :
  is_upper (to_lower c) || is_lower (to_lower c) = is_upper c || is_lower c.
Proof. destruct c as [[] [] [] [] [] [] [] []]; reflexivity. Qed.

(** On ASCII text the title of a name is the title of its lower-casing. *)
Lemma title_lower s : title (lower s) = title s.
Proof.
  unfold title. generalize false as previous.
  induction s as [|c s IH]; intros previous; [reflexivity|].
  cbn [lower map title_from]. fold (lower s).
  rewrite to_lower_idem, to_upper_lower, cased_lower, IH. reflexivity.
Qed.

(** X17. For two names each of whose titles is the title of its own
    lower-casing, as it is for every ASCII name, both lookups ignore the
    casing of the whole input, defaults included: when the two names have
    the same lower-casing they get the same crop profile and the same
    problem profile. Nothing is asked of any other text. *)
Theorem lookup_ignores_case `{PyRuntime} (input input' : string) :
  str_title (str_lower input) = str_title input ->
  str_title (str_lower input') = str_title input' ->
  str_lower input = str_lower input' ->
  get_crop_details input = get_crop_details input'
  /\ get_problem_solution input = get_problem_solution input'.
Proof.
  intros Htitle Htitle' Hlower.
  unfold get_crop_details, get_problem_solution, default_crop.
  rewrite <- Hlower, <- Htitle, <- Htitle', <- Hlower.
  split; reflexivity.
Qed.

Lemma lookup_ignores_case_witness :
  let R := cpython 0 in
  get_crop_details "QUINOA" = get_crop_details "quinoa"
  /\ get_problem_solution "QUINOA" = get_problem_solution "quinoa".
Proof.
  intros R.
  exact (lookup_ignores_case "QUINOA" "quinoa"
           (title_lower "QUINOA") (title_lower "quinoa") eq_refl).
Defined.

End Selection.
